(** * Cosmic Daily Digest: the ingestion and normalisation pipeline of [app.py]

    A shallow embedding of the Streamlit script [app.py]: the two timestamp
    formatters, the webhook fetch with its two exception handlers, the
    structural check of the decoded payload and the display logic of [main].

    Python values are modelled by the type [value] (what [response.json()]
    can return), exceptions by the type [exn], and the Streamlit calls and the
    HTTP request by a log of [event]s threaded through a small monad; the log
    holds the calls made, in order, also a call that then raises.
    Strings are byte strings holding the UTF-8 encoding of the Python text. *)

From Stdlib Require Import ZArith Bool String Ascii List Lia.
From Stdlib Require Import Floats.SpecFloat.
From stdpp Require Import base option gmap strings list pretty.

Set Warnings "-register-all".
Local Open Scope string_scope.
Local Open Scope Z_scope.

(** ** Python values *)

(** The documents produced by the JSON decoder: [None], booleans, integers,
    binary64 floats, strings, lists and string-keyed dictionaries. *)
Inductive value : Type :=
| VNone
| VBool (b : bool)
| VInt (n : Z)
| VFloat (f : spec_float)
| VStr (s : string)
| VList (l : list value)
| VDict (d : gmap string value).

(** The exception classes the script can meet.  [is_RequestException] gives
    the part of the class hierarchy the handlers of [fetch_data] look at. *)
Inductive exn : Type :=
| ConnectionError                 (* requests.exceptions.ConnectionError *)
| Timeout                         (* requests.exceptions.Timeout *)
| HTTPError (status : Z)          (* requests.exceptions.HTTPError *)
| RequestsJSONDecodeError         (* requests.exceptions.JSONDecodeError *)
| OtherRequestException (name : string)
| JSONDecodeError                 (* json.JSONDecodeError, a ValueError *)
| ValueError
| TypeError
| AttributeError
| KeyError
| OtherException (name : string).

Definition is_RequestException (e : exn) : bool :=
  match e with
  | ConnectionError | Timeout | HTTPError _
  | RequestsJSONDecodeError | OtherRequestException _ => true
  | _ => false
  end.

(** Truth value of a Python object, as tested by [if x:] and [not x]. *)
Definition truthy (v : value) : bool :=
  match v with
  | VNone => false
  | VBool b => b
  | VInt n => negb (Z.eqb n 0)
  | VFloat (S754_zero _) => false
  | VFloat _ => true
  | VStr s => negb (String.eqb s EmptyString)
  | VList l => match l with [] => false | _ => true end
  | VDict d => negb (Nat.eqb (size d) 0)
  end.

(** [v == s] for a string literal [s]: only a [str] with the same text is
    equal to a [str]. *)
Definition eq_str (v : value) (s : string) : bool :=
  match v with
  | VStr t => String.eqb t s
  | _ => false
  end.

(** ** String operations *)

(** [sub in s] on two strings: [sub] occurs somewhere in [s]. *)
Fixpoint str_contains (sub s : string) : bool :=
  String.prefix sub s ||
  match s with
  | EmptyString => false
  | String _ s' => str_contains sub s'
  end.

(** [s.replace(old, new)] for a non-empty [old]; [skip] counts the characters
    of a matched occurrence still to be dropped. *)
Fixpoint replace_from (old new s : string) (skip : nat) : string :=
  match s with
  | EmptyString => EmptyString
  | String c s' =>
      match skip with
      | S k => replace_from old new s' k
      | O =>
          if String.prefix old s
          then new +:+ replace_from old new s' (String.length old - 1)
          else String c (replace_from old new s' 0)
      end
  end.

(** [s.replace] with an empty [old] puts [new] before every character and
    at the end. *)
Fixpoint intersperse_str (new s : string) : string :=
  match s with
  | EmptyString => new
  | String c s' => new +:+ String c (intersperse_str new s')
  end.

Definition str_replace (s old new : string) : string :=
  match old with
  | EmptyString => intersperse_str new s
  | _ => replace_from old new s 0
  end.

Fixpoint str_repeat (c : ascii) (n : nat) : string :=
  match n with
  | O => EmptyString
  | S k => String c (str_repeat c k)
  end.

(** Zero-padded decimal of a non-negative number, at least [width] wide. *)
Definition pad0 (width : nat) (n : Z) : string :=
  let s := pretty n in
  str_repeat "0"%char (width - String.length s) +:+ s.

(** ** Textual form of numbers *)

(** A non-negative number [a * 2^b * 10^c], compared exactly by bringing both
    sides over the common denominator. *)
Definition scaled_compare (x y : Z * Z * Z) : comparison :=
  let '(a1, b1, c1) := x in
  let '(a2, b2, c2) := y in
  let b := Z.min b1 b2 in
  let c := Z.min c1 c2 in
  Z.compare (a1 * 2 ^ (b1 - b) * 10 ^ (c1 - c))
            (a2 * 2 ^ (b2 - b) * 10 ^ (c2 - c)).

Definition scaled_le (x y : Z * Z * Z) : bool :=
  match scaled_compare x y with Gt => false | _ => true end.

Definition scaled_lt (x y : Z * Z * Z) : bool :=
  match scaled_compare x y with Lt => true | _ => false end.

(** The binary64 form of [m * 2^e]: a 53-bit significand, or the least
    exponent [-1074]. *)
Fixpoint normalize64 (fuel : nat) (m e : Z) : Z * Z :=
  match fuel with
  | O => (m, e)
  | S k =>
      if (m <? 2 ^ 52) && (-1074 <? e)
      then normalize64 k (2 * m) (e - 1)
      else (m, e)
  end.

(** The largest [p] from [p0] on with [10^p <= m * 2^e]. *)
Fixpoint decimal_exponent (fuel : nat) (m e p : Z) : Z :=
  match fuel with
  | O => p
  | S k =>
      if scaled_le (1, 0, p + 1) (m, e, 0)
      then decimal_exponent k m e (p + 1)
      else p
  end.

(** Does [c * 10^k] read back as the float [m * 2^e]?  The float's rounding
    interval ends half-way to each neighbour and is closed when [m] is even. *)
Definition reads_back (m e c k : Z) : bool :=
  let below := if (m =? 2 ^ 52) && (-1074 <? e) then 1 else 2 in
  let lo := (4 * m - below, e - 2, 0) in
  let hi := (4 * m + 2, e - 2, 0) in
  if Z.even m
  then scaled_le lo (c, 0, k) && scaled_le (c, 0, k) hi
  else scaled_lt lo (c, 0, k) && scaled_lt (c, 0, k) hi.

(** The candidates with [n] digits: [m * 2^e] rounded down and up to a
    multiple of [10^k], [k = p - n + 1].  The nearer one that reads back is
    taken, the even one on a tie. *)
Definition digits_at (m e p : Z) (n : Z) : option (Z * Z) :=
  let k := p - n + 1 in
  let d := (m * 2 ^ Z.max e 0 * 10 ^ Z.max (- k) 0)
           / (2 ^ Z.max (- e) 0 * 10 ^ Z.max k 0) in
  let down := reads_back m e d k in
  let up := reads_back m e (d + 1) k in
  match down, up with
  | false, false => None
  | true, false => Some (d, k)
  | false, true => Some (d + 1, k)
  | true, true =>
      match scaled_compare (2 * m, e, 0) (2 * d + 1, 0, k) with
      | Lt => Some (d, k)
      | Gt => Some (d + 1, k)
      | Eq => Some (if Z.even d then d else d + 1, k)
      end
  end.

(** The shortest digit string that reads back as the float, tried from [n]
    digits on; 17 digits always read back. *)
Fixpoint shortest_digits (fuel : nat) (m e p n : Z) : Z * Z :=
  match fuel with
  | O => (m, e)
  | S j =>
      match digits_at m e p n with
      | Some r => r
      | None => shortest_digits j m e p (n + 1)
      end
  end.

Fixpoint strip_zeros_rev (s : list ascii) : list ascii :=
  match s with
  | "0"%char :: s' => strip_zeros_rev s'
  | _ => s
  end.

Definition strip_trailing_zeros (s : string) : string :=
  string_of_list_ascii (rev (strip_zeros_rev (rev (list_ascii_of_string s)))).

(** [repr] of a positive finite float [m * 2^e]: the shortest digits, in
    positional notation when the decimal point falls within [-4 < decpt <= 16]
    and in exponent notation otherwise. *)
Definition repr_finite (m0 e0 : Z) : string :=
  let '(m, e) := normalize64 64 m0 e0 in
  let p := decimal_exponent 700 m e (-325) in
  let '(c, k) := shortest_digits 17 m e p 1 in
  let all := pretty c in
  let digits := strip_trailing_zeros all in
  let decpt := k + Z.of_nat (String.length all) in
  let len := Z.of_nat (String.length digits) in
  if (decpt <=? -4) || (16 <? decpt) then
    let x := decpt - 1 in
    let mantissa :=
      match digits with
      | String d1 EmptyString => digits
      | String d1 rest => String d1 ("." +:+ rest)
      | EmptyString => digits
      end in
    mantissa +:+ "e" +:+ (if x <? 0 then "-" else "+") +:+ pad0 2 (Z.abs x)
  else if decpt <=? 0 then
    "0." +:+ str_repeat "0"%char (Z.to_nat (- decpt)) +:+ digits
  else if len <=? decpt then
    digits +:+ str_repeat "0"%char (Z.to_nat (decpt - len)) +:+ ".0"
  else
    substring 0 (Z.to_nat decpt) digits +:+ "." +:+
    substring (Z.to_nat decpt) (Z.to_nat (len - decpt)) digits.

(** [repr(x)] of a float. *)
Definition float_repr (f : spec_float) : string :=
  match f with
  | S754_zero false => "0.0"
  | S754_zero true => "-0.0"
  | S754_infinity false => "inf"
  | S754_infinity true => "-inf"
  | S754_nan => "nan"
  | S754_finite s m e =>
      (if s then "-" else EmptyString) +:+ repr_finite (Z.pos m) e
  end.


(** ** [datetime]: parsing and formatting *)

Record datetime : Type := mk_datetime {
  year : Z; month : Z; day : Z;
  hour : Z; minute : Z; second : Z; microsecond : Z;
  tzinfo : option Z            (* UTC offset in microseconds, when given *)
}.

(** The parser below follows [datetime.fromisoformat] of CPython 3.11
    ([Modules/_datetimemodule.c]) statement by statement.  A C pointer into
    the UTF-8 text is the index of a byte; reading at or after the end gives
    the terminating NUL. *)
Definition byte_at (s : string) (i : nat) : ascii :=
  match String.get i s with
  | Some c => c
  | None => Ascii.zero
  end.

Definition digit_val (c : ascii) : option Z :=
  let n := Z.of_N (N_of_ascii c) in
  if (48 <=? n) && (n <=? 57) then Some (n - 48) else None.

Definition is_digit (c : ascii) : bool :=
  match digit_val c with
  | Some _ => true
  | None => false
  end.

(** [parse_digits]: [num_digits] ASCII digits from index [p]; the value and
    the index after them. *)
Fixpoint parse_digits (s : string) (p : nat) (acc : Z) (num_digits : nat)
  : option (Z * nat) :=
  match num_digits with
  | O => Some (acc, p)
  | S k =>
      match digit_val (byte_at s p) with
      | Some d => parse_digits s (S p) (10 * acc + d) k
      | None => None
      end
  end.

(** The number of characters of a UTF-8 text: the bytes that are not
    continuation bytes. *)
Fixpoint str_len_chars (s : string) : nat :=
  match s with
  | EmptyString => O
  | String c s' =>
      let b := Z.of_N (N_of_ascii c) in
      let continuation := (128 <=? b) && (b <? 192) in
      if continuation then str_len_chars s' else S (str_len_chars s')
  end.

(** *** The proleptic Gregorian calendar *)

Definition is_leap (y : Z) : bool :=
  (y mod 4 =? 0) && (negb (y mod 100 =? 0) || (y mod 400 =? 0)).

Definition days_in_month (y m : Z) : Z :=
  if m =? 2 then (if is_leap y then 29 else 28)
  else if (m =? 4) || (m =? 6) || (m =? 9) || (m =? 11) then 30
  else 31.

(** The table [_days_before_month], for a year that is no leap year. *)
Definition days_before_month_table (m : Z) : Z :=
  match m with
  | 1 => 0 | 2 => 31 | 3 => 59 | 4 => 90 | 5 => 120 | 6 => 151
  | 7 => 181 | 8 => 212 | 9 => 243 | 10 => 273 | 11 => 304 | 12 => 334
  | _ => 0
  end.

Definition days_before_month (y m : Z) : Z :=
  days_before_month_table m + (if (2 <? m) && is_leap y then 1 else 0).

Definition days_before_year (y : Z) : Z :=
  let y1 := y - 1 in
  y1 * 365 + Z.quot y1 4 - Z.quot y1 100 + Z.quot y1 400.

Definition ymd_to_ord (y m d : Z) : Z :=
  days_before_year y + days_before_month y m + d.

(** Day of the week, Monday being 0. *)
Definition weekday (y m d : Z) : Z := Z.rem (ymd_to_ord y m d + 6) 7.

(** The ordinal of the Monday that starts ISO week 1 of the year. *)
Definition iso_week1_monday (y : Z) : Z :=
  let first_day := ymd_to_ord y 1 1 in
  let first_weekday := Z.rem (first_day + 6) 7 in
  let week1_monday := first_day - first_weekday in
  if 3 <? first_weekday then week1_monday + 7 else week1_monday.

(** [ord_to_ymd], for an ordinal from 1 on. *)
Definition ord_to_ymd (ordinal : Z) : Z * Z * Z :=
  let o := ordinal - 1 in
  let n400 := Z.quot o 146097 in
  let n := Z.rem o 146097 in
  let n100 := Z.quot n 36524 in
  let n := Z.rem n 36524 in
  let n4 := Z.quot n 1461 in
  let n := Z.rem n 1461 in
  let n1 := Z.quot n 365 in
  let n := Z.rem n 365 in
  let y := n400 * 400 + 1 + n100 * 100 + n4 * 4 + n1 in
  if (n1 =? 4) || (n100 =? 4) then (y - 1, 12, 31)
  else
    let leapyear := (n1 =? 3) && (negb (n4 =? 24) || (n100 =? 3)) in
    let m := Z.shiftr (n + 50) 5 in
    let preceding :=
      days_before_month_table m + (if (2 <? m) && leapyear then 1 else 0) in
    if n <? preceding
    then (y, m - 1, n - (preceding - days_in_month y (m - 1)) + 1)
    else (y, m, n - preceding + 1).

(** [iso_to_ymd]: the calendar date of an ISO year, week and day.  A week
    date before 0001-01-01 comes out of [ord_to_ymd] with a month below 1,
    which the constructor refuses: it is refused here. *)
Definition iso_to_ymd (iso_year iso_week iso_day : Z) : option (Z * Z * Z) :=
  let week_ok :=
    if (iso_week <=? 0) || (53 <=? iso_week) then
      (iso_week =? 53) &&
      (let first_weekday := weekday iso_year 1 1 in
       (first_weekday =? 3) || ((first_weekday =? 2) && is_leap iso_year))
    else true in
  if negb week_ok then None
  else if (iso_day <=? 0) || (8 <=? iso_day) then None
  else
    let ordinal :=
      iso_week1_monday iso_year + (iso_week - 1) * 7 + iso_day - 1 in
    if ordinal <? 1 then None else Some (ord_to_ymd ordinal).

(** *** The date part *)

(** [_find_isoformat_datetime_separator]: where the date ends, for a text
    of [len] bytes, at least 7. *)
Fixpoint skip_digits (s : string) (fuel : nat) (p : nat) : nat :=
  match fuel with
  | O => p
  | S k => if is_digit (byte_at s p) then skip_digits s k (S p) else p
  end.

Definition find_isoformat_datetime_separator (s : string) (len : nat)
  : option nat :=
  if Nat.eqb len 7 then Some 7%nat
  else if Ascii.eqb (byte_at s 4) "-" then
    if Ascii.eqb (byte_at s 5) "W" then
      if Nat.ltb len 8 then None
      else if Nat.ltb 8 len && Ascii.eqb (byte_at s 8) "-" then
        if Nat.eqb len 9 then None
        else if Nat.ltb 10 len && is_digit (byte_at s 10) then Some 8%nat
        else Some 10%nat
      else Some 8%nat
    else Some 10%nat
  else if Ascii.eqb (byte_at s 4) "W" then
    let idx := skip_digits s (len - 7) 7 in
    if Nat.ltb idx 9 then Some idx
    else if Nat.even idx then Some 7%nat
    else Some 8%nat
  else Some 8%nat.

(** [parse_isoformat_date]: [YYYY-MM-DD], [YYYYMMDD], or a week date
    [YYYY-Www[-D]], [YYYYWww[D]], in the first [len] bytes. *)
Definition parse_isoformat_date (s : string) (len : nat)
  : option (Z * Z * Z) :=
  '(y, p) ← parse_digits s 0 0 4;
  let uses_separator := Ascii.eqb (byte_at s p) "-" in
  let p := if uses_separator then S p else p in
  if Ascii.eqb (byte_at s p) "W" then
    '(iso_week, p) ← parse_digits s (S p) 0 2;
    if Nat.ltb p len then
      if uses_separator && negb (Ascii.eqb (byte_at s p) "-") then None
      else
        let p := if uses_separator then S p else p in
        '(iso_day, _) ← parse_digits s p 0 1;
        iso_to_ymd y iso_week iso_day
    else iso_to_ymd y iso_week 1
  else
    '(m, p) ← parse_digits s p 0 2;
    if uses_separator && negb (Ascii.eqb (byte_at s p) "-") then None
    else
      let p := if uses_separator then S p else p in
      '(d, _) ← parse_digits s p 0 2;
      Some (y, m, d).

(** *** The time part *)

(** The fraction of [parse_hh_mm_ss_ff]: up to six digits before [p_end]
    are read, further digits are skipped; the flag tells whether the text
    goes on after them. *)
Definition parse_fraction (s : string) (p p_end : nat) : option (Z * bool) :=
  let len_remains := (p_end - p)%nat in
  let to_parse := Nat.min len_remains 6 in
  '(us, p) ← parse_digits s p 0 to_parse;
  let us := us * 10 ^ Z.of_nat (6 - to_parse) in
  let p := skip_digits s (String.length s) p in
  Some (us, negb (Ascii.eqb (byte_at s p) Ascii.zero)).

(** The loop of [parse_hh_mm_ss_ff] over hour, minute and second: [i] is
    the component, [n] the number of components still to read. *)
Fixpoint parse_hms (s : string) (p_end : nat) (n : nat) (i : nat) (p : nat)
    (has_separator : bool) (vals : list Z)
  : option (list Z * Z * bool) :=
  match n with
  | O =>
      '(us, more) ← parse_fraction s p p_end;
      Some (vals, us, more)
  | S k =>
      '(v, p) ← parse_digits s p 0 2;
      let c := byte_at s p in
      let p1 := S p in
      let has_separator :=
        if Nat.eqb i 0 then Ascii.eqb c ":" else has_separator in
      let vals := (vals ++ [v])%list in
      if Nat.leb p_end p1 then
        Some (vals, 0, negb (Ascii.eqb c Ascii.zero))
      else if has_separator && Ascii.eqb c ":" then
        parse_hms s p_end k (S i) p1 has_separator vals
      else if Ascii.eqb c "." || Ascii.eqb c "," then
        '(us, more) ← parse_fraction s p1 p_end;
        Some (vals, us, more)
      else if negb has_separator then
        parse_hms s p_end k (S i) p has_separator vals
      else None
  end.

(** [parse_hh_mm_ss_ff]: [HH[:MM[:SS]]] or [HH[MM[SS]]] with a fraction,
    between the indices [p] and [p_end]. *)
Definition parse_hh_mm_ss_ff (s : string) (p p_end : nat)
  : option (Z * Z * Z * Z * bool) :=
  '(vals, us, more) ← parse_hms s p_end 3 0 p true [];
  Some (nth 0 vals 0, nth 1 vals 0, nth 2 vals 0, us, more).

(** The first [Z], [+] or [-] from [p] on, or the end. *)
Fixpoint find_tzinfo (s : string) (p_end : nat) (fuel : nat) (p : nat) : nat :=
  let c := byte_at s p in
  if Ascii.eqb c "Z" || Ascii.eqb c "+" || Ascii.eqb c "-" then p
  else
    match fuel with
    | O => S p
    | S k => if Nat.ltb (S p) p_end then find_tzinfo s p_end k (S p) else S p
    end.

Definition day_us : Z := 24 * 3600 * 1000000.

(** [parse_isoformat_time]: the time from index [p] on, [dtlen] bytes, with
    the UTC offset if there is one. *)
Definition parse_isoformat_time (s : string) (p dtlen : nat)
  : option (Z * Z * Z * Z * option (Z * Z)) :=
  let p_end := (p + dtlen)%nat in
  let tzinfo_pos := find_tzinfo s p_end dtlen p in
  '(h, mi, sec, us, more) ← parse_hh_mm_ss_ff s p tzinfo_pos;
  if Nat.eqb tzinfo_pos p_end then
    if more : bool then None else Some (h, mi, sec, us, @None (Z * Z))
  else if Ascii.eqb (byte_at s tzinfo_pos) "Z" then
    if Ascii.eqb (byte_at s (S tzinfo_pos)) Ascii.zero
    then Some (h, mi, sec, us, Some (0, 0))
    else None
  else
    let tzsign := if Ascii.eqb (byte_at s tzinfo_pos) "-" then -1 else 1 in
    '(th, tm, ts, tus, more) ← parse_hh_mm_ss_ff s (S tzinfo_pos) p_end;
    if more : bool then None
    else Some (h, mi, sec, us,
               Some (tzsign * (th * 3600 + tm * 60 + ts), tzsign * tus)).

(** The time zone of the result: UTC for an offset of zero seconds, and no
    offset of a day or more. *)
Definition tzinfo_from_isoformat_results (tz : option (Z * Z))
  : option (option Z) :=
  match tz with
  | None => Some None
  | Some (tzoffset, tzusec) =>
      if tzoffset =? 0 then Some (Some 0)
      else
        let off := tzoffset * 1000000 + tzusec in
        if (- day_us <? off) && (off <? day_us) then Some (Some off)
        else None
  end.

(** The range checks of the [datetime] constructor. *)
Definition valid_fields (y mo d h mi s us : Z) : bool :=
  (1 <=? y) && (y <=? 9999) && (1 <=? mo) && (mo <=? 12) &&
  (1 <=? d) && (d <=? days_in_month y mo) &&
  (0 <=? h) && (h <=? 23) && (0 <=? mi) && (mi <=? 59) &&
  (0 <=? s) && (s <=? 59) && (0 <=? us) && (us <=? 999999).

(** The bytes of the character that starts with the lead byte [c]. *)
Definition utf8_width (c : ascii) : nat :=
  let b := Z.of_N (N_of_ascii c) in
  if b <? 128 then 1%nat
  else if (224 <=? b) && (b <? 240) then 3%nat
  else if 240 <=? b then 4%nat
  else 2%nat.

(** [datetime.fromisoformat].  [None] stands for the [ValueError] raised on
    a text that is no date and time in one of the accepted forms. *)
Definition fromisoformat (date_string : string) : option datetime :=
  if Nat.ltb (str_len_chars date_string) 7 then None
  else
    let len := String.length date_string in
    separator_location ← find_isoformat_datetime_separator date_string len;
    '(y, mo, d) ← parse_isoformat_date date_string separator_location;
    '(h, mi, s, us, tz) ←
       (if Nat.ltb separator_location len then
          let p := (separator_location +
                    utf8_width (byte_at date_string separator_location))%nat in
          parse_isoformat_time date_string p (len - p)
        else Some (0, 0, 0, 0, None));
    tzi ← tzinfo_from_isoformat_results tz;
    if valid_fields y mo d h mi s us
    then Some (mk_datetime y mo d h mi s us tzi)
    else None.

Definition month_name (m : Z) : string :=
  match m with
  | 1 => "January" | 2 => "February" | 3 => "March" | 4 => "April"
  | 5 => "May" | 6 => "June" | 7 => "July" | 8 => "August"
  | 9 => "September" | 10 => "October" | 11 => "November" | _ => "December"
  end.

(** One conversion of [strftime] in the C locale.  The conversions the
    script uses are interpreted; any other character is copied with its [%]. *)
Definition strftime_directive (dt : datetime) (c : ascii) : string :=
  match c with
  | "I"%char => pad0 2 (if hour dt mod 12 =? 0 then 12 else hour dt mod 12)
  | "M"%char => pad0 2 (minute dt)
  | "p"%char => if hour dt <? 12 then "AM" else "PM"
  | "B"%char => month_name (month dt)
  | "d"%char => pad0 2 (day dt)
  | "Y"%char => pretty (year dt)
  | "%"%char => "%"
  | _ => String "%" (String c EmptyString)
  end.

(** [dt.strftime(fmt)]. *)
Fixpoint strftime (dt : datetime) (fmt : string) : string :=
  match fmt with
  | EmptyString => EmptyString
  | String "%" (String c rest) => strftime_directive dt c +:+ strftime dt rest
  | String c rest => String c (strftime dt rest)
  end.

(** ** The timestamp formatters *)

(** [format_time]: a falsy argument gives ['N/A'] before anything is tried;
    [iso_time.replace] exists on strings only; a [ValueError] of
    [fromisoformat] is caught and gives ['Time N/A']. *)
Definition format_time (iso_time : value) : exn + string :=
  if negb (truthy iso_time) then inr "N/A"
  else
    match iso_time with
    | VStr s =>
        match fromisoformat (str_replace s "Z" "+00:00") with
        | Some dt_object => inr (strftime dt_object "%I:%M %p")
        | None => inr "Time N/A"
        end
    | _ => inl AttributeError
    end.

(** [format_date]: as [format_time], with the long date format and the
    placeholder ['Date N/A']. *)
Definition format_date (iso_time : value) : exn + string :=
  if negb (truthy iso_time) then inr "N/A"
  else
    match iso_time with
    | VStr s =>
        match fromisoformat (str_replace s "Z" "+00:00") with
        | Some dt_object => inr (strftime dt_object "%B %d, %Y")
        | None => inr "Date N/A"
        end
    | _ => inl AttributeError
    end.

(** ** Effects: the log of Streamlit calls and HTTP requests *)

Inductive event : Type :=
| Title (s : string)
| Info (s : string)
| EmptySlot
| ErrorMsg (s : string) (details : option exn)
| Warning (s : string)
| Markdown (body : value)
| Subheader (body : value)
| Json (data : value)
| Checkbox (label : string)
| Columns (n : nat)
| Video (url : value)
| Image (url caption : value)
| Caption (s : string)
| Metric (label text : string)
| HttpGet (url : string) (timeout : Z).

(** How a piece of the script ends: with a value, by [st.stop()], or by an
    exception nobody caught. *)
Inductive outcome (A : Type) : Type :=
| Done (a : A)
| Stopped
| Raised (e : exn).
Arguments Done {A} a.
Arguments Stopped {A}.
Arguments Raised {A} e.

Definition M (A : Type) : Type := list event * outcome A.

Definition ret {A} (a : A) : M A := ([], Done a).

Definition bind {A B} (m : M A) (f : A -> M B) : M B :=
  match m with
  | (log, Done a) => let '(log', o) := f a in ((log ++ log')%list, o)
  | (log, Stopped) => (log, Stopped)
  | (log, Raised e) => (log, Raised e)
  end.

Notation "'let!' x := m 'in' k" := (bind m (fun x => k))
  (at level 10, x name, m at level 100, k at level 200).
Notation "'run' m 'then' k" := (bind m (fun _ => k))
  (at level 10, m at level 100, k at level 200).

Definition emit (ev : event) : M unit := ([ev], Done tt).
Definition stop {A} : M A := ([], Stopped).

Definition lift {A} (r : exn + A) : M A :=
  match r with
  | inl e => ([], Raised e)
  | inr a => ret a
  end.

(** The end of a library call that may raise. *)
Definition raised_by (r : option exn) : M unit :=
  match r with
  | Some e => ([], Raised e)
  | None => ret tt
  end.

(** [try: body except ... as e: handler e]. *)
Definition try_except {A} (body : M A) (handler : exn -> M A) : M A :=
  match body with
  | (log, Raised e) => let '(log', o) := handler e in ((log ++ log')%list, o)
  | _ => body
  end.

(** ** Operations on the decoded payload *)

(** [item in container] for a string [item]: a key test on a dictionary, an
    element test on a list, a substring test on a string; other objects are
    not iterable. *)
Definition py_in (item : string) (container : value) : exn + bool :=
  match container with
  | VDict d => inr (bool_decide (is_Some (d !! item)))
  | VList l => inr (existsb (fun v => eq_str v item) l)
  | VStr s => inr (str_contains item s)
  | _ => inl TypeError
  end.

(** [container[key]] for a string [key]. *)
Definition subscript (container : value) (key : string) : exn + value :=
  match container with
  | VDict d => match d !! key with Some v => inr v | None => inl KeyError end
  | _ => inl TypeError
  end.

(** [obj.get(key, default)]: a method of dictionaries only. *)
Definition dict_get (obj : value) (key : string) (default : value)
  : exn + value :=
  match obj with
  | VDict d => inr (match d !! key with Some v => v | None => default end)
  | _ => inl AttributeError
  end.

(** ** The script *)

Record response : Type := mk_response {
  status_code : Z;
  text : string
}.

(** [response.raise_for_status()]: an [HTTPError] for the client and server
    error codes, 400 to 599. *)
Definition raise_for_status (r : response) : exn + unit :=
  if (400 <=? status_code r) && (status_code r <? 600)
  then inl (HTTPError (status_code r))
  else inr tt.

Definition dquote : string := String (ascii_of_nat 34) EmptyString.

(** The HTML heading of a section of the page. *)
Definition section_title (s : string) : string :=
  "<h2 class=" +:+ dquote +:+ "section-title" +:+ dquote +:+ ">" +:+ s
  +:+ "</h2>".

Section Script.

(** What the script finds around it in one run. *)

(** [os.environ.get("N8N_WEBHOOK_URL")]. *)
Variable WEBHOOK_URL : option string.
(** [requests.get(url, timeout=t)]: a response, or the exception raised. *)
Variable requests_get : string -> Z -> exn + response.
(** The JSON decoder behind [response.json()]; [None] on a body that is
    not JSON. *)
Variable json_loads : string -> option value.
(** Whether [response.json()] re-raises a decoding failure as
    [requests.exceptions.JSONDecodeError], a [RequestException]
    (requests 2.27 and later), or lets [json.JSONDecodeError] through. *)
Variable requests_wraps_json_errors : bool.
(** The state of the debugging checkbox. *)
Variable show_raw : bool.
(** [str] of a list or of a dictionary. *)
Variable container_str : value -> string.
(** What [st.video(url)] and [st.image(url, caption=...)] raise, if
    anything: Streamlit refuses a URL or a caption it cannot use. *)
Variable st_video : value -> option exn.
Variable st_image : value -> value -> option exn.

(** [response.json()]. *)
Definition response_json (r : response) : exn + value :=
  match json_loads (text r) with
  | Some data => inr data
  | None =>
      inl (if requests_wraps_json_errors
           then RequestsJSONDecodeError else JSONDecodeError)
  end.

(** The text an f-string puts for [{v}]. *)
Definition py_format (v : value) : string :=
  match v with
  | VNone => "None"
  | VBool b => if b then "True" else "False"
  | VInt n => pretty n
  | VFloat f => float_repr f
  | VStr s => s
  | VList _ | VDict _ => container_str v
  end.

(** The conditional expression of the two weather metrics,
    [f"{v}<suffix>" if v is not None else '--'], with the unit left open. *)
Definition numeric (v : value) (suffix : string) : string :=
  match v with
  | VNone => "--"
  | _ => py_format v +:+ suffix
  end.

Definition temp_display (temp_value : value) : string :=
  numeric temp_value "°C".

Definition wind_display (wind_value : value) : string :=
  numeric wind_value " km/h".

(** The statements of [fetch_data] before the body is decoded. *)
Definition fetch_body (url : string) : M response :=
  run emit (Info "🛰️ Fetching data from the Cosmos...") then
  run emit (HttpGet url 10) then
  let! response := lift (requests_get url 10) in
  run lift (raise_for_status response) then
  run emit EmptySlot then
  ret response.

Definition connection_error : string :=
  "🔴 Connection Error: Could not connect to webhook. Details: ".

Definition unexpected_error : string :=
  "❌ An unexpected error occurred: ".

(** The two [except] clauses of [fetch_data], tried in order. *)
Definition fetch_handler (e : exn) : M value :=
  if is_RequestException e
  then run emit (ErrorMsg connection_error (Some e)) then stop
  else run emit (ErrorMsg unexpected_error (Some e)) then stop.

Definition fetch_data (url : string) : M value :=
  try_except
    (let! response := fetch_body url in lift (response_json response))
    fetch_handler.

(** The test of the structure check:
    [not data or 'apod' not in data or 'weather' not in data]. *)
Definition structure_invalid (data : value) : exn + bool :=
  if negb (truthy data) then inr true
  else
    match py_in "apod" data with
    | inl e => inl e
    | inr false => inr true
    | inr true =>
        match py_in "weather" data with
        | inl e => inl e
        | inr b => inr (negb b)
        end
    end.

(** The media column: the video or the picture when there is a URL, by
    the [if/elif/else] on [media_type]. *)
Definition show_media (apod media_type media_url : value) : M unit :=
  if truthy media_url then
    if eq_str media_type "video" then
      run emit (Video media_url) then
      raised_by (st_video media_url)
    else if eq_str media_type "image" then
      let! caption := lift (dict_get apod "title" VNone) in
      run emit (Image media_url caption) then
      raised_by (st_image media_url caption)
    else emit (Warning "Unknown media type.")
  else emit (Warning "APOD media URL not available.").

Definition invalid_structure : string :=
  "Data structure invalid. Ensure your n8n workflow returns 'apod' and 'weather' objects.".

(** [main] from the structure check on. *)
Definition dashboard (data : value) : M unit :=
  let! invalid := lift (structure_invalid data) in
  if invalid : bool then emit (ErrorMsg invalid_structure None)
  else
    let! apod := lift (subscript data "apod") in
    let! weather := lift (subscript data "weather") in
    run emit (Markdown (VStr (section_title
      "✨ NASA Astronomy Picture of the Day (APOD)"))) then
    run emit (Columns 2) then
    let! title := lift (dict_get apod "title" (VStr "Title Missing")) in
    run emit (Subheader title) then
    let! media_type := lift (dict_get apod "media_type" VNone) in
    let! media_url := lift (dict_get apod "url" VNone) in
    run show_media apod media_type media_url then
    let! date := lift (dict_get apod "date" VNone) in
    let! date_text := lift (format_date date) in
    run emit (Caption ("**Date:** " +:+ date_text)) then
    let! explanation :=
      lift (dict_get apod "explanation" (VStr "No explanation available.")) in
    run emit (Markdown explanation) then
    run emit (Markdown (VStr (section_title
      "☁️ Local Weather Summary"))) then
    run emit (Columns 3) then
    let! temp_value := lift (dict_get weather "temperature" VNone) in
    run emit (Metric "Temperature" (temp_display temp_value)) then
    let! wind_value := lift (dict_get weather "windspeed" VNone) in
    run emit (Metric "Wind Speed" (wind_display wind_value)) then
    let! time := lift (dict_get weather "time" VNone) in
    let! local_time := lift (format_time time) in
    emit (Metric "Local Time" local_time).

(** The debugging aid shown when the checkbox is ticked. *)
Definition debug_view (data : value) : M unit :=
  run emit (Checkbox
    "Show Raw Webhook Data (for debugging temperature/windspeed issues)") then
  if show_raw then
    run emit (Subheader (VStr "Raw JSON Data Received")) then
    run emit (Json data) then
    emit (Warning "If Temperature/Wind Speed are missing, check the key names in the 'weather' section of the JSON above. They must be exactly 'temperature' and 'windspeed'.")
  else ret tt.

Definition main : M unit :=
  run emit (Title "🌌 Cosmic Daily Digest 🗓️") then
  match WEBHOOK_URL with
  | Some (String c u) =>
      let! data := fetch_data (String c u) in
      run debug_view data then
      dashboard data
  | _ =>
      run emit (ErrorMsg
        "🚨 CONFIGURATION ERROR: The 'N8N_WEBHOOK_URL' environment variable is not set."
        None) then
      emit (Markdown (VStr
        "Please set the environment variable to your full n8n webhook URL to run the application."))
  end.

End Script.

(** ** Inputs and predicates of the statements *)

(** The float 21.5, that is [6051711999279104 * 2^(-48)]. *)
Definition float_21_5 : spec_float :=
  S754_finite false 6051711999279104 (-48).

(** The float 18.2 as the JSON decoder rounds it. *)
Definition float_18_2 : spec_float :=
  S754_finite false 5122844576133939 (-48).

(** A timestamp is parsable when, with [Z] read as the UTC offset, the ISO
    parser accepts it. *)
Definition parsable_timestamp (s : string) : bool :=
  match fromisoformat (str_replace s "Z" "+00:00") with
  | Some _ => true
  | None => false
  end.

(** The first four bytes are ASCII digits, as the year of a date. *)
Definition starts_with_year (s : string) : bool :=
  is_digit (byte_at s 0) && is_digit (byte_at s 1) &&
  is_digit (byte_at s 2) && is_digit (byte_at s 3).

(** Stated after the glossary of the specification: an ISO-8601 timestamp is
    a text of the form [YYYY-MM-DDTHH:MM:SS], alone or followed by [Z] or by
    an offset [+HH:MM] or [-HH:MM]. *)
Definition iso8601_timestamp (s : string) : bool :=
  let d i := is_digit (byte_at s i) in
  let c i ch := Ascii.eqb (byte_at s i) ch in
  let len := String.length s in
  d 0%nat && d 1%nat && d 2%nat && d 3%nat && c 4%nat "-"%char &&
  d 5%nat && d 6%nat && c 7%nat "-"%char && d 8%nat && d 9%nat &&
  c 10%nat "T"%char &&
  d 11%nat && d 12%nat && c 13%nat ":"%char && d 14%nat && d 15%nat &&
  c 16%nat ":"%char && d 17%nat && d 18%nat &&
  (Nat.eqb len 19
   || (Nat.eqb len 20 && c 19%nat "Z"%char)
   || (Nat.eqb len 25 && (c 19%nat "+"%char || c 19%nat "-"%char) &&
       d 20%nat && d 21%nat && c 22%nat ":"%char && d 23%nat && d 24%nat)).

(** Stated after the specification: a non-empty string that is no ISO-8601
    timestamp gets the placeholder of each formatter. *)
Definition placeholder_on_non_iso (s : string) : Prop :=
  s <> EmptyString ->
  iso8601_timestamp s = false ->
  format_time (VStr s) = inr "Time N/A" /\
  format_date (VStr s) = inr "Date N/A".

(** A top-level key is present: the document is an object that binds it. *)
Definition has_key (data : value) (key : string) : bool :=
  match data with
  | VDict d => bool_decide (is_Some (d !! key))
  | _ => false
  end.

Definition is_get (ev : event) : bool :=
  match ev with
  | HttpGet _ _ => true
  | _ => false
  end.

(** The number of HTTP requests in a log. *)
Definition count_gets (log : list event) : nat :=
  length (filter (fun ev => is_get ev = true) log).

(** An [st.error] with the given message is in the log. *)
Definition reports_error (msg : string) (log : list event) : bool :=
  existsb (fun ev => match ev with
                     | ErrorMsg m _ => String.eqb m msg
                     | _ => false
                     end) log.

(** A run of [fetch_data] that ends in the handler of request failures. *)
Definition is_fetch_error (res : M value) : Prop :=
  snd res = Stopped /\ reports_error connection_error (fst res) = true.

(** The log of [fetch_data] up to the request. *)
Definition request_log (url : string) : list event :=
  [Info "🛰️ Fetching data from the Cosmos..."; HttpGet url 10].

(** Stated after the specification: the structure check fails exactly when
    one of the two required top-level keys is absent. *)
Definition schema_error_iff_key_absent (data : value) : Prop :=
  structure_invalid data = inr true <->
  (has_key data "apod" = false \/ has_key data "weather" = false).

(** Stated after the specification: a body that is not JSON gives a fatal
    error of another kind than a fetch error. *)
Definition parse_error_is_distinct
    (requests_get : string -> Z -> exn + response)
    (json_loads : string -> option value) (wraps : bool) (url : string)
  : Prop :=
  forall r,
    requests_get url 10 = inr r ->
    raise_for_status r = inr tt ->
    json_loads (text r) = None ->
    snd (fetch_data requests_get json_loads wraps url) = Stopped /\
    ~ is_fetch_error (fetch_data requests_get json_loads wraps url).

(** Stated after the specification: every status outside 200 to 299 gives a
    fetch error. *)
Definition non_2xx_is_fetch_error
    (requests_get : string -> Z -> exn + response)
    (json_loads : string -> option value) (wraps : bool) (url : string)
  : Prop :=
  forall r,
    requests_get url 10 = inr r ->
    ~ (200 <= status_code r < 300) ->
    is_fetch_error (fetch_data requests_get json_loads wraps url).

(** Servers and decoders for the examples. *)
Definition answers (status : Z) (body : string)
  : string -> Z -> exn + response :=
  fun _ _ => inr (mk_response status body).

Definition fails_with (e : exn) : string -> Z -> exn + response :=
  fun _ _ => inl e.

Definition decodes_nothing : string -> option value := fun _ => None.

Definition decodes_to (data : value) : string -> option value :=
  fun _ => Some data.

Definition no_containers : value -> string := fun _ => EmptyString.

(** A Streamlit that takes every URL and caption, and one that cannot open
    the media it is given. *)
Definition plays : value -> option exn := fun _ => None.

Definition shows : value -> value -> option exn := fun _ _ => None.

Definition media_error : exn := OtherException "MediaFileStorageError".

Definition cannot_play : value -> option exn := fun _ => Some media_error.

Definition hook : string := "https://n8n.example/webhook/digest".

(** A payload with a picture, a temperature, no wind speed and a time. *)
Definition sample_payload : value :=
  VDict (<["apod" := VDict (<["media_type" := VStr "image"]>
                            {["url" := VStr "https://apod.example/m31.jpg"]})]>
         {["weather" := VDict (<["temperature" := VFloat float_18_2]>
                               (<["windspeed" := VNone]>
                                {["time" := VStr "2024-03-05T08:15:00Z"]}))]}).

(** ** Predicates on values, logs and outcomes *)

Definition is_dict (v : value) : bool :=
  match v with
  | VDict _ => true
  | _ => false
  end.

Definition is_str (v : value) : bool :=
  match v with
  | VStr _ => true
  | _ => false
  end.

(** The values that are neither containers nor strings nor [None]. *)
Definition is_scalar (v : value) : bool :=
  match v with
  | VBool _ | VInt _ | VFloat _ => true
  | _ => false
  end.

(** [d.get(key, default)] on the entries of a dictionary. *)
Definition get_or (d : gmap string value) (key : string) (default : value)
  : value :=
  match d !! key with
  | Some v => v
  | None => default
  end.

(** [not WEBHOOK_URL] is false: the variable is set and not empty. *)
Definition configured (webhook_url : option string) : bool :=
  match webhook_url with
  | Some (String _ _) => true
  | _ => false
  end.

Definition is_error (ev : event) : bool :=
  match ev with
  | ErrorMsg _ _ => true
  | _ => false
  end.

(** The number of [st.error] calls in a log. *)
Definition count_errors (log : list event) : nat :=
  length (filter (fun ev => is_error ev = true) log).

(** The widgets that display the payload; the request, the progress
    messages, the page title and the debugging aid are not among them. *)
Definition is_display (ev : event) : bool :=
  match ev with
  | ErrorMsg _ _ | Warning _ | Markdown _ | Subheader _ | Columns _
  | Video _ | Image _ _ | Caption _ | Metric _ _ => true
  | Title _ | Info _ | EmptySlot | Json _ | Checkbox _ | HttpGet _ _ => false
  end.

Definition is_json (ev : event) : bool :=
  match ev with
  | Json _ => true
  | _ => false
  end.

(** Every event a computation logs satisfies [P]. *)
Definition log_all {A} (P : event -> bool) (m : M A) : Prop :=
  forallb P (fst m) = true.

(** Every exception a computation can end with satisfies [P]. *)
Definition raises_only {A} (P : exn -> Prop) (m : M A) : Prop :=
  forall e, snd m = Raised e -> P e.

(** The exceptions of a missing method or a wrong operand type. *)
Definition type_or_attribute_error (e : exn) : Prop :=
  e = TypeError \/ e = AttributeError.

(** The log of the debugging aid. *)
Definition debug_log (show_raw : bool) (data : value) : list event :=
  Checkbox "Show Raw Webhook Data (for debugging temperature/windspeed issues)"
  :: (if show_raw
      then [Subheader (VStr "Raw JSON Data Received"); Json data;
            Warning "If Temperature/Wind Speed are missing, check the key names in the 'weather' section of the JSON above. They must be exactly 'temperature' and 'windspeed'."]
      else []).

(** The call of the media column for an [apod] dictionary. *)
Definition media_event (apod : gmap string value) : event :=
  if truthy (get_or apod "url" VNone) then
    if eq_str (get_or apod "media_type" VNone) "video"
    then Video (get_or apod "url" VNone)
    else if eq_str (get_or apod "media_type" VNone) "image"
    then Image (get_or apod "url" VNone) (get_or apod "title" VNone)
    else Warning "Unknown media type."
  else Warning "APOD media URL not available.".

(** What that call raises, if it is [st.video] or [st.image] and Streamlit
    refuses its arguments. *)
Definition media_failure
    (st_video : value -> option exn) (st_image : value -> value -> option exn)
    (apod : gmap string value) : option exn :=
  if truthy (get_or apod "url" VNone) then
    if eq_str (get_or apod "media_type" VNone) "video"
    then st_video (get_or apod "url" VNone)
    else if eq_str (get_or apod "media_type" VNone) "image"
    then st_image (get_or apod "url" VNone) (get_or apod "title" VNone)
    else None
  else None.

(** An exception raised by one of the two media calls. *)
Definition raised_by_media
    (st_video : value -> option exn) (st_image : value -> value -> option exn)
    (e : exn) : Prop :=
  (exists url, st_video url = Some e) \/
  (exists url caption, st_image url caption = Some e).

(** The exceptions a run can end with: a missing method, a wrong operand
    type, or what a media call raised. *)
Definition dashboard_exception
    (st_video : value -> option exn) (st_image : value -> value -> option exn)
    (e : exn) : Prop :=
  type_or_attribute_error e \/ raised_by_media st_video st_image e.

(** * Properties *)

(** ** Supporting facts *)

Lemma truthy_nonempty_string (s : string) :
  s <> EmptyString -> truthy (VStr s) = true.
Proof.
  intros Hs. simpl. destruct (String.eqb_spec s EmptyString); [contradiction | reflexivity].
Qed.

Lemma format_time_string (s : string) :
  s <> EmptyString ->
  format_time (VStr s) =
  inr (match fromisoformat (str_replace s "Z" "+00:00") with
       | Some dt => strftime dt "%I:%M %p"
       | None => "Time N/A"
       end).
Proof.
  intros Hs. unfold format_time.
  rewrite (truthy_nonempty_string s Hs). simpl negb. cbv iota.
  destruct (fromisoformat _); reflexivity.
Qed.

Lemma format_date_string (s : string) :
  s <> EmptyString ->
  format_date (VStr s) =
  inr (match fromisoformat (str_replace s "Z" "+00:00") with
       | Some dt => strftime dt "%B %d, %Y"
       | None => "Date N/A"
       end).
Proof.
  intros Hs. unfold format_date.
  rewrite (truthy_nonempty_string s Hs). simpl negb. cbv iota.
  destruct (fromisoformat _); reflexivity.
Qed.

(** *** The replacement of [Z] *)

Lemma prefix_Z (c : ascii) (s : string) :
  String.prefix "Z" (String c s) = Ascii.eqb "Z" c.
Proof.
  change (String.prefix "Z" (String c s))
    with (if ascii_dec "Z" c then String.prefix EmptyString s else false).
  destruct (ascii_dec "Z" c) as [<- | Hne].
  - destruct s; reflexivity.
  - symmetry. now apply Ascii.eqb_neq.
Qed.

Lemma str_contains_Z_cons (c : ascii) (s : string) :
  str_contains "Z" (String c s) = Ascii.eqb "Z" c || str_contains "Z" s.
Proof.
  change (str_contains "Z" (String c s))
    with (String.prefix "Z" (String c s) || str_contains "Z" s).
  now rewrite prefix_Z.
Qed.

Lemma replace_Z_cons (new : string) (c : ascii) (s : string) :
  str_replace (String c s) "Z" new =
  if Ascii.eqb "Z" c then new +:+ str_replace s "Z" new
  else String c (str_replace s "Z" new).
Proof.
  change (str_replace (String c s) "Z" new)
    with (if String.prefix "Z" (String c s)
          then new +:+ replace_from "Z" new s 0
          else String c (replace_from "Z" new s 0)).
  now rewrite prefix_Z.
Qed.

Lemma str_replace_without_Z (new s : string) :
  str_contains "Z" s = false -> str_replace s "Z" new = s.
Proof.
  induction s as [| c s IH]; [reflexivity |].
  rewrite str_contains_Z_cons, replace_Z_cons.
  intros H. apply orb_false_iff in H as [Hc Hs].
  rewrite Hc, IH by assumption. reflexivity.
Qed.

Lemma str_contains_Z_append (s t : string) :
  str_contains "Z" (s +:+ t) = str_contains "Z" s || str_contains "Z" t.
Proof.
  induction s as [| c s IH].
  - simpl. destruct t; reflexivity.
  - change (String c s +:+ t) with (String c (s +:+ t)).
    rewrite !str_contains_Z_cons, IH. now rewrite orb_assoc.
Qed.

(** *** What the parser refuses *)

Lemma parse_digits_year (s : string) (r : Z * nat) :
  parse_digits s 0 0 4 = Some r -> starts_with_year s = true.
Proof.
  unfold starts_with_year, is_digit. cbn [parse_digits].
  destruct (digit_val (byte_at s 0)); [| discriminate].
  destruct (digit_val (byte_at s 1)); [| discriminate].
  destruct (digit_val (byte_at s 2)); [| discriminate].
  destruct (digit_val (byte_at s 3)); [| discriminate].
  reflexivity.
Qed.

(** Whatever form the date has, it starts with the four digits of a year. *)
Lemma fromisoformat_starts_with_year (s : string) (dt : datetime) :
  fromisoformat s = Some dt -> starts_with_year s = true.
Proof.
  unfold fromisoformat.
  destruct (Nat.ltb (str_len_chars s) 7); [discriminate |].
  destruct (find_isoformat_datetime_separator s (String.length s))
    as [sep |]; [| discriminate].
  cbn [mbind option_bind].
  destruct (parse_isoformat_date s sep) as [[[y mo] d] |] eqn:Hdate;
    [| discriminate].
  intros _. unfold parse_isoformat_date in Hdate.
  destruct (parse_digits s 0 0 4) as [r |] eqn:Hyear; [| discriminate].
  exact (parse_digits_year s r Hyear).
Qed.

Lemma replace_Z_keeps_year (s : string) :
  starts_with_year (str_replace s "Z" "+00:00") = true ->
  starts_with_year s = true.
Proof.
  destruct s as [| c0 [| c1 [| c2 [| c3 s]]]];
    rewrite ?replace_Z_cons;
    repeat match goal with
           | |- context [Ascii.eqb "Z" ?c] =>
               let E := fresh "E" in
               destruct (Ascii.eqb "Z" c) eqn:E;
               [apply Ascii.eqb_eq in E; subst c |]
           end;
    unfold starts_with_year, byte_at; cbn [String.get append];
    repeat match goal with
           | |- context [is_digit ?c] => is_var c; destruct (is_digit c)
           end;
    intros H; try reflexivity; vm_compute in H; discriminate H.
Qed.

Lemma no_year_unparsable (s : string) :
  starts_with_year s = false -> parsable_timestamp s = false.
Proof.
  intros H. unfold parsable_timestamp.
  destruct (fromisoformat (str_replace s "Z" "+00:00")) as [dt |] eqn:Hp;
    [| reflexivity].
  apply fromisoformat_starts_with_year, replace_Z_keeps_year in Hp.
  congruence.
Qed.

(** Outside the domain: a number where the timestamp should be has no
    [replace] method. *)
Example format_time_of_number :
  format_time (VInt 1709626500) = inl AttributeError.
Proof. reflexivity. Qed.

Example format_time_morning :
  format_time (VStr "2024-03-05T08:15:00Z") = inr "08:15 AM".
Proof. vm_compute. reflexivity. Qed.

Example format_date_without_time :
  format_date (VStr "2024-03-05") = inr "March 05, 2024".
Proof. vm_compute. reflexivity. Qed.

Example temperature_reading :
  temp_display no_containers (VFloat float_18_2) = "18.2°C".
Proof. vm_compute. reflexivity. Qed.

Example windspeed_missing :
  wind_display no_containers VNone = "--".
Proof. reflexivity. Qed.

(** A whole pass over [sample_payload]: the picture, the placeholders of
    the missing fields and the three metrics. *)
Example dashboard_of_sample_payload :
  dashboard no_containers plays shows sample_payload =
  ([Markdown (VStr (section_title
      "✨ NASA Astronomy Picture of the Day (APOD)"));
    Columns 2;
    Subheader (VStr "Title Missing");
    Image (VStr "https://apod.example/m31.jpg") VNone;
    Caption "**Date:** N/A";
    Markdown (VStr "No explanation available.");
    Markdown (VStr (section_title "☁️ Local Weather Summary"));
    Columns 3;
    Metric "Temperature" "18.2°C";
    Metric "Wind Speed" "--";
    Metric "Local Time" "08:15 AM"],
   Done tt).
Proof. vm_compute. reflexivity. Qed.

(** ** The numeric formatter *)

(** C1. For every unit suffix the numeric formatter gives ["--"] on
    [None] and the text of the number followed by the suffix on every
    integer and float, zero included ([0] gives ["0"] and the suffix, never
    ["--"]): [0] with ["°C"] gives ["0°C"] and [21.5] gives ["21.5°C"].  The two weather metrics are this formatter at
    the suffixes ["°C"] and [" km/h"]. *)
Theorem numeric_with_unit (container_str : value -> string) (suffix : string) :
  numeric container_str VNone suffix = "--" /\
  (forall n : Z, numeric container_str (VInt n) suffix = pretty n +:+ suffix) /\
  (forall f : spec_float,
     numeric container_str (VFloat f) suffix = float_repr f +:+ suffix) /\
  numeric container_str (VInt 0) suffix = String "0" suffix /\
  numeric container_str (VFloat (S754_zero false)) suffix = "0.0" +:+ suffix /\
  numeric container_str (VInt 0) "°C" = "0°C" /\
  numeric container_str (VFloat float_21_5) "°C" = "21.5°C" /\
  (forall v, temp_display container_str v = numeric container_str v "°C") /\
  (forall v, wind_display container_str v = numeric container_str v " km/h").
Proof.
  repeat split; reflexivity.
Qed.

(** ** The timestamp formatters *)

(** C2, as amended.  On [None] both formatters give ["N/A"].  On every
    non-empty string that [fromisoformat] refuses, once each [Z] is replaced
    by [+00:00], the time formatter gives ["Time N/A"] and the date
    formatter ["Date N/A"]; every string that does not start with the four
    digits of a year is such a string. *)
Theorem placeholders_absent_unparsable :
  format_time VNone = inr "N/A" /\
  format_date VNone = inr "N/A" /\
  (forall s : string,
     s <> EmptyString ->
     parsable_timestamp s = false ->
     format_time (VStr s) = inr "Time N/A" /\
     format_date (VStr s) = inr "Date N/A") /\
  (forall s : string,
     s <> EmptyString ->
     starts_with_year s = false ->
     format_time (VStr s) = inr "Time N/A" /\
     format_date (VStr s) = inr "Date N/A").
Proof.
  assert (forall s : string,
             s <> EmptyString ->
             parsable_timestamp s = false ->
             format_time (VStr s) = inr "Time N/A" /\
             format_date (VStr s) = inr "Date N/A") as Hun.
  { intros s Hs Hparse. unfold parsable_timestamp in Hparse.
    rewrite (format_time_string s Hs), (format_date_string s Hs).
    destruct (fromisoformat _); [discriminate | split; reflexivity]. }
  split; [reflexivity | split; [reflexivity | split; [exact Hun |]]].
  intros s Hs Hyear. apply (Hun s Hs). now apply no_year_unparsable.
Qed.

Lemma placeholders_absent_unparsable_witness :
  (format_time (VStr "2024-02-30T10:00:00Z") = inr "Time N/A" /\
   format_date (VStr "2024-02-30T10:00:00Z") = inr "Date N/A") /\
  (format_time (VStr "tomorrow at noon") = inr "Time N/A" /\
   format_date (VStr "tomorrow at noon") = inr "Date N/A").
Proof.
  destruct placeholders_absent_unparsable as (_ & _ & Hparse & Hyear).
  split.
  - apply (Hparse "2024-02-30T10:00:00Z");
      [discriminate | vm_compute; reflexivity].
  - apply (Hyear "tomorrow at noon"); [discriminate | reflexivity].
Defined.

(** C2, as stated, fails: ["2024-03-05x08:15"] is no ISO-8601 timestamp,
    but the parser takes any character between date and time, and the
    formatters show the time and the date. *)
Lemma non_iso_string_is_formatted :
  ~ placeholder_on_non_iso "2024-03-05x08:15".
Proof.
  unfold placeholder_on_non_iso. intros H.
  destruct H as [Htime _]; [discriminate | reflexivity |].
  vm_compute in Htime. discriminate Htime.
Qed.

Example non_iso_string_time :
  format_time (VStr "2024-03-05x08:15") = inr "08:15 AM" /\
  format_date (VStr "2024-03-05x08:15") = inr "March 05, 2024".
Proof. split; vm_compute; reflexivity. Qed.

(** C3, as amended.  The two timestamp formatters return on every value
    that is falsy or a string, and raise [AttributeError] on every other
    value; the numeric formatter returns on every value, the placeholder on
    [None] and the text of the value with the suffix otherwise; the media
    column raises nothing of its own: with an [apod] object it ends normally
    unless the one [st.video] or [st.image] call it makes raises. *)
Theorem normalisers_return_or_raise
    (container_str : value -> string)
    (st_video : value -> option exn) (st_image : value -> value -> option exn)
    (v : value) :
  (truthy v = false \/ is_str v = true ->
   (exists r, format_time v = inr r) /\ (exists r, format_date v = inr r)) /\
  (truthy v = true -> is_str v = false ->
   format_time v = inl AttributeError /\ format_date v = inl AttributeError) /\
  (forall suffix : string,
     numeric container_str v suffix =
     match v with
     | VNone => "--"
     | _ => py_format container_str v +:+ suffix
     end) /\
  (forall (apod : gmap string value) (media_url : value),
     (forall e,
        snd (show_media st_video st_image (VDict apod) v media_url) = Raised e ->
        raised_by_media st_video st_image e) /\
     (st_video media_url = None ->
      st_image media_url (get_or apod "title" VNone) = None ->
      snd (show_media st_video st_image (VDict apod) v media_url) = Done tt)).
Proof.
  split; [| split; [| split]].
  - intros Hdom.
    destruct (truthy v) eqn:Ht.
    + destruct Hdom as [Hf | Hs]; [discriminate Hf |].
      destruct v; try discriminate Hs.
      assert (s <> EmptyString) as Hne by (intros ->; discriminate Ht).
      rewrite (format_time_string s Hne), (format_date_string s Hne).
      split; eexists; reflexivity.
    + unfold format_time, format_date. rewrite Ht.
      split; eexists; reflexivity.
  - intros Ht Hs. unfold format_time, format_date. rewrite Ht.
    destruct v; try discriminate Hs; split; reflexivity.
  - intros suffix. destruct v; reflexivity.
  - intros apod media_url. unfold show_media.
    destruct (truthy media_url); [| split; [discriminate | reflexivity]].
    destruct (eq_str v "video").
    { destruct (st_video media_url) as [e |] eqn:Hv; simpl; split.
      - intros e' H. injection H as <-. left. eauto.
      - discriminate.
      - discriminate.
      - reflexivity. }
    destruct (eq_str v "image"); [| split; [discriminate | reflexivity]].
    cbn [dict_get lift bind ret emit]. fold (get_or apod "title" VNone).
    destruct (st_image media_url (get_or apod "title" VNone)) as [e |] eqn:Hi;
      simpl; split.
    + intros e' H. injection H as <-. right. eauto.
    + discriminate.
    + discriminate.
    + reflexivity.
Qed.

Lemma normalisers_return_or_raise_witness :
  ((exists r, format_time (VStr "2024-13-01T00:00:00Z") = inr r) /\
   (exists r, format_date (VStr "2024-13-01T00:00:00Z") = inr r)) /\
  (format_time (VList [VInt 2024; VInt 3; VInt 5]) = inl AttributeError /\
   format_date (VList [VInt 2024; VInt 3; VInt 5]) = inl AttributeError) /\
  snd (show_media plays shows (VDict ∅) (VStr "video")
                  (VStr "https://example.org/a.mp4")) = Done tt.
Proof.
  split; [| split].
  - destruct (normalisers_return_or_raise no_containers plays shows
                (VStr "2024-13-01T00:00:00Z")) as (H & _).
    apply H. right. reflexivity.
  - destruct (normalisers_return_or_raise no_containers plays shows
                (VList [VInt 2024; VInt 3; VInt 5])) as (_ & H & _).
    apply H; reflexivity.
  - destruct (normalisers_return_or_raise no_containers plays shows
                (VStr "video")) as (_ & _ & _ & H).
    apply (H ∅ (VStr "https://example.org/a.mp4")); reflexivity.
Defined.

(** C3, as stated, fails: a number where the timestamp should be is truthy
    and has no [replace] method, so the time formatter raises. *)
Lemma format_time_raises_on_number :
  ~ (exists r, format_time (VInt 1709626500) = inr r).
Proof. intros [r H]. discriminate H. Qed.

(** C7. The time formatter turns ["2024-01-01T12:30:00Z"] into
    ["12:30 PM"], and the date formatter turns ["2024-01-01T00:00:00Z"] into
    ["January 01, 2024"]; the trailing [Z] is read as the UTC offset zero. *)
Theorem formatters_on_utc_timestamps :
  format_time (VStr "2024-01-01T12:30:00Z") = inr "12:30 PM" /\
  format_date (VStr "2024-01-01T00:00:00Z") = inr "January 01, 2024" /\
  fromisoformat (str_replace "2024-01-01T12:30:00Z" "Z" "+00:00") =
  Some (mk_datetime 2024 1 1 12 30 0 0 (Some 0)).
Proof. repeat split; vm_compute; reflexivity. Qed.

(** C9. The empty string counts as absence: both formatters give ["N/A"]
    on it, not ["Time N/A"] or ["Date N/A"]. *)
Theorem empty_string_is_absence :
  format_time (VStr EmptyString) = inr "N/A" /\
  format_date (VStr EmptyString) = inr "N/A" /\
  format_time (VStr EmptyString) <> inr "Time N/A" /\
  format_date (VStr EmptyString) <> inr "Date N/A".
Proof. repeat split; try reflexivity; discriminate. Qed.

(** ** The structure check *)

Lemma bind_lift_value {A B} (a : A) (k : A -> M B) :
  bind (lift (inr a)) k = k a.
Proof. unfold bind, lift, ret. destruct (k a). reflexivity. Qed.

Lemma eq_str_true (v : value) (s : string) :
  eq_str v s = true <-> v = VStr s.
Proof.
  destruct v; simpl; try (split; [discriminate | intros H; discriminate H]).
  split.
  - intros H. apply String.eqb_eq in H. now subst.
  - intros H. injection H as ->. apply String.eqb_refl.
Qed.

(** On an object the check comes down to the two key tests: the empty
    object has neither key. *)
Lemma structure_invalid_dict (d : gmap string value) :
  structure_invalid (VDict d) =
  inr (negb (bool_decide (is_Some (d !! "apod")) &&
             bool_decide (is_Some (d !! "weather")))).
Proof.
  unfold structure_invalid. simpl truthy. rewrite negb_involutive.
  destruct (Nat.eqb_spec (size d) 0) as [Hsize | Hsize].
  - apply map_size_empty_inv in Hsize. subst d.
    rewrite !lookup_empty. reflexivity.
  - simpl py_in.
    destruct (bool_decide (is_Some (d !! "apod"))); simpl; [| reflexivity].
    destruct (bool_decide (is_Some (d !! "weather"))); reflexivity.
Qed.

Lemma structure_invalid_dict_iff (d : gmap string value) :
  structure_invalid (VDict d) = inr true <->
  d !! "apod" = None \/ d !! "weather" = None.
Proof.
  rewrite structure_invalid_dict.
  destruct (d !! "apod") as [a |] eqn:Ha, (d !! "weather") as [w |] eqn:Hw;
    simpl; split; intros H; try reflexivity; try discriminate; auto.
  destruct H; discriminate.
Qed.

(** C4, as amended.  For every decoded body that is a JSON object the
    structure check fails exactly when [apod] or [weather] is absent, and a
    failed check shows the one error message and nothing of the payload; the
    empty object and an object with [apod] alone are refused. *)
Theorem structure_check_on_objects
    (container_str : value -> string)
    (st_video : value -> option exn) (st_image : value -> value -> option exn)
    (d : gmap string value) :
  (structure_invalid (VDict d) = inr true <->
   d !! "apod" = None \/ d !! "weather" = None) /\
  (structure_invalid (VDict d) = inr true ->
   dashboard container_str st_video st_image (VDict d) =
   ([ErrorMsg invalid_structure None], Done tt)) /\
  structure_invalid (VDict ∅) = inr true /\
  (forall a : value, structure_invalid (VDict {["apod" := a]}) = inr true).
Proof.
  split; [apply structure_invalid_dict_iff |].
  split; [| split].
  - intros H. unfold dashboard. rewrite H. reflexivity.
  - apply structure_invalid_dict_iff. left. apply lookup_empty.
  - intros a. apply structure_invalid_dict_iff. right.
    apply lookup_singleton_ne. discriminate.
Qed.

Lemma structure_check_on_objects_witness :
  dashboard no_containers plays shows (VDict ∅) =
  ([ErrorMsg invalid_structure None], Done tt).
Proof.
  destruct (structure_check_on_objects no_containers plays shows ∅)
    as (_ & H & _).
  apply H. reflexivity.
Defined.

(** C4, as stated, fails: the list [["apod", "weather"]] is a decoded body
    without top-level keys, and the check lets it through. *)
Lemma list_body_passes_structure_check :
  ~ schema_error_iff_key_absent (VList [VStr "apod"; VStr "weather"]).
Proof.
  unfold schema_error_iff_key_absent. intros [_ H].
  specialize (H (or_introl eq_refl)). discriminate H.
Qed.

(** What happens to that list afterwards: [data['apod']] raises. *)
Example list_body_raises :
  dashboard no_containers plays shows (VList [VStr "apod"; VStr "weather"]) =
  ([], Raised TypeError).
Proof. reflexivity. Qed.

(** A number as body is not iterable: the check itself raises. *)
Example number_body_raises :
  structure_invalid (VInt 42) = inl TypeError.
Proof. reflexivity. Qed.

(** C10. The structure check looks at the presence of the two keys only: an
    object that binds [apod] and [weather] passes, whatever the two values
    are, and the values are handed on as they come. *)
Theorem structure_check_ignores_values
    (d : gmap string value) (a w : value) :
  d !! "apod" = Some a ->
  d !! "weather" = Some w ->
  structure_invalid (VDict d) = inr false /\
  subscript (VDict d) "apod" = inr a /\
  subscript (VDict d) "weather" = inr w.
Proof.
  intros Ha Hw. rewrite structure_invalid_dict. simpl subscript.
  rewrite Ha, Hw. rewrite !bool_decide_eq_true_2 by eauto.
  repeat split.
Qed.

Lemma structure_check_ignores_values_witness :
  structure_invalid
    (VDict (<["weather" := VInt 3]> {["apod" := VStr "not an object"]})) =
  inr false.
Proof.
  apply (structure_check_ignores_values
           (<["weather" := VInt 3]> {["apod" := VStr "not an object"]})
           (VStr "not an object") (VInt 3)); reflexivity.
Defined.

(** ** The media column *)

(** A Streamlit call: the call is logged, and the run goes on unless the
    call raises. *)
Lemma call_result (ev : event) (r : option exn) :
  bind (emit ev) (fun _ => raised_by r) =
  ([ev], match r with
         | Some e => Raised e
         | None => Done tt
         end).
Proof. destruct r; reflexivity. Qed.

(** The three branches of the media column when there is a URL. *)
Lemma show_media_with_url
    (st_video : value -> option exn) (st_image : value -> value -> option exn)
    (apod : gmap string value) (media_type media_url : value) :
  truthy media_url = true ->
  show_media st_video st_image (VDict apod) media_type media_url =
  if eq_str media_type "video" then
    ([Video media_url],
     match st_video media_url with
     | Some e => Raised e
     | None => Done tt
     end)
  else if eq_str media_type "image" then
    ([Image media_url (get_or apod "title" VNone)],
     match st_image media_url (get_or apod "title" VNone) with
     | Some e => Raised e
     | None => Done tt
     end)
  else ([Warning "Unknown media type."], Done tt).
Proof.
  intros Hurl. unfold show_media. rewrite Hurl.
  destruct (eq_str media_type "video"); [apply call_result |].
  destruct (eq_str media_type "image"); [| reflexivity].
  cbn [dict_get]. fold (get_or apod "title" VNone).
  rewrite bind_lift_value. apply call_result.
Qed.



(** ** Fetching *)

Section Fetch.

Variable requests_get : string -> Z -> exn + response.
Variable json_loads : string -> option value.
Variable wraps : bool.
Variable url : string.

Lemma fetch_body_failed (e : exn) :
  requests_get url 10 = inl e ->
  fetch_body requests_get url = (request_log url, Raised e).
Proof. intros H. unfold fetch_body, bind, emit, lift. rewrite H. reflexivity. Qed.

Lemma fetch_body_error_status (r : response) :
  requests_get url 10 = inr r ->
  400 <= status_code r < 600 ->
  fetch_body requests_get url =
  (request_log url, Raised (HTTPError (status_code r))).
Proof.
  intros H Hs. unfold fetch_body, bind, emit, lift, raise_for_status.
  rewrite H. simpl.
  replace ((400 <=? status_code r) && (status_code r <? 600)) with true
    by (symmetry; apply andb_true_iff; split; lia).
  reflexivity.
Qed.

Lemma fetch_body_passed (r : response) :
  requests_get url 10 = inr r ->
  ~ (400 <= status_code r < 600) ->
  fetch_body requests_get url = ((request_log url ++ [EmptySlot])%list, Done r).
Proof.
  intros H Hs. unfold fetch_body, bind, emit, lift, raise_for_status.
  rewrite H. simpl.
  replace ((400 <=? status_code r) && (status_code r <? 600)) with false
    by (symmetry; apply andb_false_iff; lia).
  reflexivity.
Qed.

Lemma fetch_data_of_body (log : list event) (o : outcome response) :
  fetch_body requests_get url = (log, o) ->
  fetch_data requests_get json_loads wraps url =
  match o with
  | Done r =>
      match response_json json_loads wraps r with
      | inr data => (log, Done data)
      | inl e =>
          ((log ++ [ErrorMsg (if is_RequestException e
                              then connection_error else unexpected_error)
                             (Some e)])%list, Stopped)
      end
  | Stopped => (log, Stopped)
  | Raised e =>
      ((log ++ [ErrorMsg (if is_RequestException e
                          then connection_error else unexpected_error)
                         (Some e)])%list, Stopped)
  end.
Proof.
  intros H. unfold fetch_data. rewrite H.
  destruct o as [r | | e]; simpl.
  - destruct (response_json json_loads wraps r) as [e | data]; simpl.
    + rewrite app_nil_r. unfold fetch_handler.
      destruct (is_RequestException e); reflexivity.
    + rewrite app_nil_r. reflexivity.
  - reflexivity.
  - unfold fetch_handler. destruct (is_RequestException e); reflexivity.
Qed.

(** Every run of [fetch_data] sends one request, whatever comes back. *)
Lemma fetch_data_one_get :
  count_gets (fst (fetch_data requests_get json_loads wraps url)) = 1%nat.
Proof.
  destruct (requests_get url 10) as [e | r] eqn:Hget.
  - rewrite (fetch_data_of_body _ _ (fetch_body_failed e Hget)). reflexivity.
  - destruct (Z_le_dec 400 (status_code r)) as [Hlo |];
      [destruct (Z_lt_dec (status_code r) 600) as [Hhi |] |].
    + rewrite (fetch_data_of_body _ _
                 (fetch_body_error_status r Hget (conj Hlo Hhi))).
      reflexivity.
    + rewrite (fetch_data_of_body _ _ (fetch_body_passed r Hget ltac:(lia))).
      destruct (response_json json_loads wraps r); reflexivity.
    + rewrite (fetch_data_of_body _ _ (fetch_body_passed r Hget ltac:(lia))).
      destruct (response_json json_loads wraps r); reflexivity.
Qed.

End Fetch.

(** When [fetch_data] stops, [main] stops with it: nothing is shown after
    the error message. *)
Lemma main_stops_with_fetch
    (requests_get : string -> Z -> exn + response)
    (json_loads : string -> option value) (wraps show_raw : bool)
    (container_str : value -> string)
    (st_video : value -> option exn) (st_image : value -> value -> option exn)
    (c : ascii) (u : string) (log : list event) :
  fetch_data requests_get json_loads wraps (String c u) = (log, Stopped) ->
  main (Some (String c u)) requests_get json_loads wraps show_raw
       container_str st_video st_image =
  (Title "🌌 Cosmic Daily Digest 🗓️" :: log, Stopped).
Proof. intros H. unfold main, bind, emit. rewrite H. reflexivity. Qed.

(** C5, as amended.  A body that is not JSON, fetched with a status that is
    no error, ends the run with one error message and nothing after it.  The
    message comes from the handler of the exception class that
    [response.json()] raises: the catch-all handler when the decoding error
    is let through, the handler of request failures when it is re-raised as
    a [RequestException]; only in the first case does the error differ from
    a fetch error. *)
Theorem invalid_json_stops_the_run
    (requests_get : string -> Z -> exn + response)
    (json_loads : string -> option value) (wraps : bool)
    (url : string) (r : response) :
  requests_get url 10 = inr r ->
  raise_for_status r = inr tt ->
  json_loads (text r) = None ->
  fetch_data requests_get json_loads wraps url =
  ((request_log url ++
    [EmptySlot;
     if wraps
     then ErrorMsg connection_error (Some RequestsJSONDecodeError)
     else ErrorMsg unexpected_error (Some JSONDecodeError)])%list,
   Stopped) /\
  (wraps = false ->
   ~ is_fetch_error (fetch_data requests_get json_loads wraps url)) /\
  (wraps = true ->
   is_fetch_error (fetch_data requests_get json_loads wraps url)) /\
  (forall (show_raw : bool) (container_str : value -> string)
          (st_video : value -> option exn)
          (st_image : value -> value -> option exn),
     url <> EmptyString ->
     snd (main (Some url) requests_get json_loads wraps show_raw
               container_str st_video st_image) = Stopped).
Proof.
  intros Hget Hstatus Hjson.
  assert (~ (400 <= status_code r < 600)) as Hok.
  { unfold raise_for_status in Hstatus. intros [Hlo Hhi].
    replace ((400 <=? status_code r) && (status_code r <? 600)) with true
      in Hstatus by (symmetry; apply andb_true_iff; split; lia).
    discriminate Hstatus. }
  assert (forall log,
             fetch_data requests_get json_loads wraps url = (log, Stopped) ->
             forall (show_raw : bool) (container_str : value -> string)
                    (st_video : value -> option exn)
                    (st_image : value -> value -> option exn),
               url <> EmptyString ->
               snd (main (Some url) requests_get json_loads wraps show_raw
                         container_str st_video st_image) = Stopped) as Hmain.
  { intros log Hlog show_raw container_str st_video st_image Hurl.
    destruct url as [| c u]; [contradiction |].
    rewrite (main_stops_with_fetch _ _ _ show_raw container_str st_video
               st_image c u log Hlog).
    reflexivity. }
  revert Hmain.
  rewrite (fetch_data_of_body requests_get json_loads wraps url _ _
             (fetch_body_passed requests_get url r Hget Hok)).
  unfold response_json. rewrite Hjson. intros Hmain.
  destruct wraps; simpl; (split; [reflexivity |]);
    (split; [| split]); try discriminate;
    try (eapply Hmain; reflexivity); unfold is_fetch_error; simpl.
  - intros _. split; reflexivity.
  - intros _ [_ H]. discriminate H.
Qed.

Lemma invalid_json_stops_the_run_witness :
  ~ is_fetch_error
      (fetch_data (answers 200 "<html>not json</html>") decodes_nothing
                  false hook).
Proof.
  destruct (invalid_json_stops_the_run
              (answers 200 "<html>not json</html>") decodes_nothing false hook
              (mk_response 200 "<html>not json</html>"))
    as (_ & H & _); try reflexivity.
  apply H. reflexivity.
Defined.

(** C5, as stated, fails: with a requests library that re-raises decoding
    errors as [RequestException], a body that is not JSON is reported by the
    handler of request failures, as a fetch error is. *)
Lemma json_error_reported_as_fetch_error :
  ~ parse_error_is_distinct
      (answers 200 "<html>not json</html>") decodes_nothing true hook.
Proof.
  unfold parse_error_is_distinct. intros H.
  destruct (H (mk_response 200 "<html>not json</html>")) as [_ Hno];
    try reflexivity.
  apply Hno. split; reflexivity.
Qed.

(** C6, as amended.  [fetch_data] sends one GET request, to the given URL
    with a timeout of 10, and no other.  A response whose status is not in
    400 to 599, so every 2xx status, passes with its body; an exception of
    the request (connection failure, timeout) and every status in 400 to 599
    end the run with the connection error message, which carries the
    exception or the status. *)
Theorem fetch_single_request
    (requests_get : string -> Z -> exn + response)
    (json_loads : string -> option value) (wraps : bool) (url : string) :
  (exists rest,
     fst (fetch_data requests_get json_loads wraps url) =
     (request_log url ++ rest)%list /\ count_gets rest = 0%nat) /\
  count_gets (fst (fetch_data requests_get json_loads wraps url)) = 1%nat /\
  (forall r,
     requests_get url 10 = inr r ->
     ~ (400 <= status_code r < 600) ->
     fetch_body requests_get url =
     ((request_log url ++ [EmptySlot])%list, Done r)) /\
  (forall e,
     requests_get url 10 = inl e ->
     is_RequestException e = true ->
     fetch_data requests_get json_loads wraps url =
     ((request_log url ++ [ErrorMsg connection_error (Some e)])%list,
      Stopped)) /\
  (forall r,
     requests_get url 10 = inr r ->
     400 <= status_code r < 600 ->
     fetch_data requests_get json_loads wraps url =
     ((request_log url ++
       [ErrorMsg connection_error (Some (HTTPError (status_code r)))])%list,
      Stopped)).
Proof.
  split; [| split; [apply fetch_data_one_get | split; [| split]]].
  - destruct (requests_get url 10) as [e | r] eqn:Hget.
    + rewrite (fetch_data_of_body _ json_loads wraps _ _ _
                 (fetch_body_failed _ _ e Hget)).
      eexists. split; reflexivity.
    + destruct (Z_le_dec 400 (status_code r)) as [Hlo |];
        [destruct (Z_lt_dec (status_code r) 600) as [Hhi |] |].
      * rewrite (fetch_data_of_body _ json_loads wraps _ _ _
                   (fetch_body_error_status _ _ r Hget (conj Hlo Hhi))).
        eexists. split; reflexivity.
      * rewrite (fetch_data_of_body _ json_loads wraps _ _ _
                   (fetch_body_passed _ _ r Hget ltac:(lia))).
        destruct (response_json json_loads wraps r);
          eexists; split; reflexivity.
      * rewrite (fetch_data_of_body _ json_loads wraps _ _ _
                   (fetch_body_passed _ _ r Hget ltac:(lia))).
        destruct (response_json json_loads wraps r);
          eexists; split; reflexivity.
  - intros r Hget Hs. now apply fetch_body_passed.
  - intros e Hget He.
    rewrite (fetch_data_of_body _ json_loads wraps _ _ _
               (fetch_body_failed _ _ e Hget)).
    rewrite He. reflexivity.
  - intros r Hget Hs.
    rewrite (fetch_data_of_body _ json_loads wraps _ _ _
               (fetch_body_error_status _ _ r Hget Hs)).
    reflexivity.
Qed.

Lemma fetch_single_request_witness :
  fetch_body (answers 200 "{}") hook =
  ((request_log hook ++ [EmptySlot])%list, Done (mk_response 200 "{}")) /\
  fetch_data (fails_with Timeout) decodes_nothing true hook =
  ((request_log hook ++ [ErrorMsg connection_error (Some Timeout)])%list,
   Stopped) /\
  fetch_data (answers 503 "busy") decodes_nothing true hook =
  ((request_log hook ++
    [ErrorMsg connection_error (Some (HTTPError 503))])%list, Stopped).
Proof.
  split; [| split].
  - destruct (fetch_single_request (answers 200 "{}") decodes_nothing true hook)
      as (_ & _ & H & _).
    apply (H (mk_response 200 "{}")); [reflexivity | simpl; lia].
  - destruct (fetch_single_request (fails_with Timeout) decodes_nothing true
                                   hook) as (_ & _ & _ & H & _).
    apply (H Timeout); reflexivity.
  - destruct (fetch_single_request (answers 503 "busy") decodes_nothing true
                                   hook) as (_ & _ & _ & _ & H).
    apply (H (mk_response 503 "busy")); [reflexivity | simpl; lia].
Defined.

(** C6, as stated, fails: the status 300 is outside 200 to 299, and a
    response with it is decoded and returned like a success. *)
Lemma status_300_is_not_fetch_error :
  ~ non_2xx_is_fetch_error
      (answers 300 "{}") (decodes_to (VDict ∅)) true hook.
Proof.
  unfold non_2xx_is_fetch_error. intros H.
  destruct (H (mk_response 300 "{}")) as [Hstop _];
    [reflexivity | simpl; lia | discriminate Hstop].
Qed.

Example status_300_returns_the_document :
  fetch_data (answers 300 "{}") (decodes_to (VDict ∅)) true hook =
  ((request_log hook ++ [EmptySlot])%list, Done (VDict ∅)).
Proof. reflexivity. Qed.

(** * Further properties of the script *)

(** ** Laws of the log monad *)

Lemma bind_emit {B} (ev : event) (k : unit -> M B) :
  bind (emit ev) k = (ev :: fst (k tt), snd (k tt)).
Proof. unfold bind, emit. destruct (k tt). reflexivity. Qed.

Lemma bind_lift {A B} (r : exn + A) (k : A -> M B) :
  bind (lift r) k =
  match r with
  | inl e => ([], Raised e)
  | inr a => k a
  end.
Proof. destruct r as [e | a]; simpl; [reflexivity |]. destruct (k a). reflexivity. Qed.

Lemma log_all_ret {A} (P : event -> bool) (a : A) : log_all P (ret a).
Proof. reflexivity. Qed.

Lemma log_all_emit (P : event -> bool) (ev : event) :
  P ev = true -> log_all P (emit ev).
Proof. intros H. unfold log_all. simpl. now rewrite H. Qed.

Lemma log_all_lift {A} (P : event -> bool) (r : exn + A) : log_all P (lift r).
Proof. destruct r; reflexivity. Qed.

Lemma log_all_bind {A B} (P : event -> bool) (m : M A) (k : A -> M B) :
  log_all P m -> (forall a, log_all P (k a)) -> log_all P (bind m k).
Proof.
  unfold log_all. destruct m as [log [a | | e]]; simpl; intros Hm Hk; auto.
  specialize (Hk a). destruct (k a) as [log' o]. simpl in *.
  rewrite forallb_app. now rewrite Hm, Hk.
Qed.

Lemma raises_only_ret {A} (P : exn -> Prop) (a : A) : raises_only P (ret a).
Proof. intros e H. discriminate H. Qed.

Lemma raises_only_emit (P : exn -> Prop) (ev : event) :
  raises_only P (emit ev).
Proof. intros e H. discriminate H. Qed.

Lemma raises_only_lift {A} (P : exn -> Prop) (r : exn + A) :
  (forall e, r = inl e -> P e) -> raises_only P (lift r).
Proof.
  intros Hr e H. destruct r as [e' | a]; simpl in H; [| discriminate H].
  injection H as <-. now apply Hr.
Qed.

Lemma raises_only_bind {A B} (P : exn -> Prop) (m : M A) (k : A -> M B) :
  raises_only P m -> (forall a, raises_only P (k a)) ->
  raises_only P (bind m k).
Proof.
  unfold raises_only. destruct m as [log [a | | e]]; simpl; intros Hm Hk e' H.
  - specialize (Hk a e'). destruct (k a) as [log' o]. apply Hk. exact H.
  - discriminate H.
  - injection H as <-. now apply Hm.
Qed.

Lemma log_all_raised_by (P : event -> bool) (r : option exn) :
  log_all P (raised_by r).
Proof. destruct r; reflexivity. Qed.

Lemma raises_only_raised_by (P : exn -> Prop) (r : option exn) :
  (forall e, r = Some e -> P e) -> raises_only P (raised_by r).
Proof.
  intros Hr e H. destruct r as [e' |]; simpl in H; [| discriminate H].
  injection H as <-. now apply Hr.
Qed.

Lemma count_gets_app (l1 l2 : list event) :
  count_gets (l1 ++ l2)%list = (count_gets l1 + count_gets l2)%nat.
Proof. unfold count_gets. now rewrite filter_app, length_app. Qed.

Lemma count_errors_app (l1 l2 : list event) :
  count_errors (l1 ++ l2)%list = (count_errors l1 + count_errors l2)%nat.
Proof. unfold count_errors. now rewrite filter_app, length_app. Qed.

Lemma display_log_no_gets (log : list event) :
  forallb is_display log = true -> count_gets log = 0%nat.
Proof.
  induction log as [| ev log IH]; [reflexivity |].
  simpl. intros H. apply andb_true_iff in H as [Hev Hlog].
  change (ev :: log) with ([ev] ++ log)%list. rewrite count_gets_app, IH by assumption.
  destruct ev; try discriminate Hev; reflexivity.
Qed.

Lemma display_log_no_json (log : list event) :
  forallb is_display log = true -> existsb is_json log = false.
Proof.
  induction log as [| ev log IH]; [reflexivity |].
  simpl. intros H. apply andb_true_iff in H as [Hev Hlog].
  rewrite IH by assumption. destruct ev; try discriminate Hev; reflexivity.
Qed.

(** ** The fetch, seen from its caller *)

(** The three ways a run of [fetch_data] can go. *)
Lemma fetch_data_cases
    (requests_get : string -> Z -> exn + response)
    (json_loads : string -> option value) (wraps : bool) (url : string) :
  (exists e,
     requests_get url 10 = inl e /\
     fetch_data requests_get json_loads wraps url =
     ((request_log url ++
       [ErrorMsg (if is_RequestException e
                  then connection_error else unexpected_error) (Some e)])%list,
      Stopped)) \/
  (exists r,
     requests_get url 10 = inr r /\ 400 <= status_code r < 600 /\
     fetch_data requests_get json_loads wraps url =
     ((request_log url ++
       [ErrorMsg connection_error (Some (HTTPError (status_code r)))])%list,
      Stopped)) \/
  (exists r,
     requests_get url 10 = inr r /\ ~ (400 <= status_code r < 600) /\
     fetch_data requests_get json_loads wraps url =
     match json_loads (text r) with
     | Some data => ((request_log url ++ [EmptySlot])%list, Done data)
     | None =>
         ((request_log url ++
           [EmptySlot;
            if wraps
            then ErrorMsg connection_error (Some RequestsJSONDecodeError)
            else ErrorMsg unexpected_error (Some JSONDecodeError)])%list,
          Stopped)
     end).
Proof.
  destruct (requests_get url 10) as [e | r] eqn:Hget.
  - left. exists e. split; [reflexivity |].
    now rewrite (fetch_data_of_body _ json_loads wraps _ _ _
                   (fetch_body_failed _ _ e Hget)).
  - right.
    destruct (Z_le_dec 400 (status_code r)) as [Hlo | Hlo];
      [destruct (Z_lt_dec (status_code r) 600) as [Hhi | Hhi] |].
    + left. exists r. repeat split; try assumption.
      now rewrite (fetch_data_of_body _ json_loads wraps _ _ _
                     (fetch_body_error_status _ _ r Hget (conj Hlo Hhi))).
    + right. exists r. repeat split; [lia |].
      rewrite (fetch_data_of_body _ json_loads wraps _ _ _
                 (fetch_body_passed _ _ r Hget ltac:(lia))).
      unfold response_json. destruct (json_loads (text r)); [reflexivity |].
      destruct wraps; reflexivity.
    + right. exists r. repeat split; [lia |].
      rewrite (fetch_data_of_body _ json_loads wraps _ _ _
                 (fetch_body_passed _ _ r Hget ltac:(lia))).
      unfold response_json. destruct (json_loads (text r)); [reflexivity |].
      destruct wraps; reflexivity.
Qed.

Lemma fetch_data_not_raised
    (requests_get : string -> Z -> exn + response)
    (json_loads : string -> option value) (wraps : bool) (url : string)
    (e : exn) :
  snd (fetch_data requests_get json_loads wraps url) <> Raised e.
Proof.
  destruct (fetch_data_cases requests_get json_loads wraps url)
    as [(e' & _ & ->) | [(r & _ & _ & ->) | (r & _ & _ & ->)]];
    try discriminate.
  destruct (json_loads (text r)); discriminate.
Qed.

(** X1. No exception leaves [fetch_data]: whatever the request and the
    decoder do, the call returns the document or stops the script. *)
Theorem fetch_data_never_raises
    (requests_get : string -> Z -> exn + response)
    (json_loads : string -> option value) (wraps : bool) (url : string) :
  (exists data,
     snd (fetch_data requests_get json_loads wraps url) = Done data) \/
  snd (fetch_data requests_get json_loads wraps url) = Stopped.
Proof.
  pose proof (fetch_data_not_raised requests_get json_loads wraps url) as H.
  destruct (snd (fetch_data requests_get json_loads wraps url))
    as [data | | e].
  - left. exists data. reflexivity.
  - right. reflexivity.
  - destruct (H e). reflexivity.
Qed.

(** X2. [fetch_data] returns a document exactly when the request gave a
    response whose status is not in 400 to 599 and whose body decodes to that
    document; the log is then the progress message, the request and the
    cleared slot, without any error message. *)
Theorem fetch_data_returns_iff
    (requests_get : string -> Z -> exn + response)
    (json_loads : string -> option value) (wraps : bool) (url : string)
    (data : value) :
  (snd (fetch_data requests_get json_loads wraps url) = Done data <->
   exists r,
     requests_get url 10 = inr r /\
     ~ (400 <= status_code r < 600) /\
     json_loads (text r) = Some data) /\
  (snd (fetch_data requests_get json_loads wraps url) = Done data ->
   fst (fetch_data requests_get json_loads wraps url) =
   (request_log url ++ [EmptySlot])%list).
Proof.
  split; [split |].
  - destruct (fetch_data_cases requests_get json_loads wraps url)
      as [(e & _ & ->) | [(r & _ & _ & ->) | (r & Hget & Hs & ->)]];
      try discriminate.
    destruct (json_loads (text r)) as [data' |] eqn:Hjson; [| discriminate].
    simpl. intros H. injection H as ->. exists r. auto.
  - intros (r & Hget & Hs & Hjson).
    rewrite (fetch_data_of_body _ json_loads wraps _ _ _
               (fetch_body_passed _ _ r Hget Hs)).
    unfold response_json. rewrite Hjson. reflexivity.
  - destruct (fetch_data_cases requests_get json_loads wraps url)
      as [(e & _ & ->) | [(r & _ & _ & ->) | (r & Hget & Hs & ->)]];
      try discriminate.
    destruct (json_loads (text r)); [reflexivity | discriminate].
Qed.

(** X3. A run of [fetch_data] that stops has shown exactly one error
    message, as its last event; a run that returns has shown none. *)
Theorem fetch_data_one_error_message
    (requests_get : string -> Z -> exn + response)
    (json_loads : string -> option value) (wraps : bool) (url : string) :
  match snd (fetch_data requests_get json_loads wraps url) with
  | Done _ =>
      count_errors (fst (fetch_data requests_get json_loads wraps url)) = 0%nat
  | _ =>
      count_errors (fst (fetch_data requests_get json_loads wraps url)) = 1%nat
      /\ exists msg e,
        last (fst (fetch_data requests_get json_loads wraps url)) =
        Some (ErrorMsg msg (Some e))
  end.
Proof.
  destruct (fetch_data_cases requests_get json_loads wraps url)
    as [(e & _ & ->) | [(r & _ & _ & ->) | (r & _ & _ & ->)]].
  - simpl. split; [reflexivity | eauto].
  - simpl. split; [reflexivity | eauto].
  - destruct (json_loads (text r)); simpl; [reflexivity |].
    destruct wraps; (split; [reflexivity | eauto]).
Qed.

(** X4. An exception of [requests.get] that is no [RequestException] is
    caught by the second handler: the run stops with the unexpected-error
    message carrying that exception. *)
Theorem fetch_data_catch_all
    (requests_get : string -> Z -> exn + response)
    (json_loads : string -> option value) (wraps : bool) (url : string)
    (e : exn) :
  requests_get url 10 = inl e ->
  is_RequestException e = false ->
  fetch_data requests_get json_loads wraps url =
  ((request_log url ++ [ErrorMsg unexpected_error (Some e)])%list, Stopped).
Proof.
  intros Hget He.
  rewrite (fetch_data_of_body _ json_loads wraps _ _ _
             (fetch_body_failed _ _ e Hget)).
  now rewrite He.
Qed.

Lemma fetch_data_catch_all_witness :
  fetch_data (fails_with (OtherException "UnicodeError")) decodes_nothing
             true hook =
  ((request_log hook ++
    [ErrorMsg unexpected_error (Some (OtherException "UnicodeError"))])%list,
   Stopped).
Proof.
  apply fetch_data_catch_all; reflexivity.
Defined.

Lemma fetch_data_returns_iff_witness :
  snd (fetch_data (answers 200 "{}") (decodes_to (VDict ∅)) true hook) =
  Done (VDict ∅).
Proof.
  destruct (fetch_data_returns_iff (answers 200 "{}") (decodes_to (VDict ∅))
              true hook (VDict ∅)) as [[_ H] _].
  apply H. exists (mk_response 200 "{}").
  split; [reflexivity | split; [simpl; lia | reflexivity]].
Defined.

(** ** The formatters on every value *)

Lemma format_time_raises (v : value) (e : exn) :
  format_time v = inl e ->
  e = AttributeError /\ truthy v = true /\ is_str v = false.
Proof.
  unfold format_time. destruct (truthy v) eqn:Ht; simpl.
  - destruct v; try (intros H; injection H as <-; auto).
    destruct (fromisoformat _); discriminate.
  - discriminate.
Qed.

Lemma format_date_raises (v : value) (e : exn) :
  format_date v = inl e ->
  e = AttributeError /\ truthy v = true /\ is_str v = false.
Proof.
  unfold format_date. destruct (truthy v) eqn:Ht; simpl.
  - destruct v; try (intros H; injection H as <-; auto).
    destruct (fromisoformat _); discriminate.
  - discriminate.
Qed.

(** X5. The two formatters go the same way on every value: a falsy value
    (None, the empty string, zero, false, an empty list or dictionary) gives
    ["N/A"]; a truthy value that is no string raises [AttributeError]; and
    nothing else raises. *)
Theorem formatters_case_analysis (v : value) :
  (truthy v = false ->
   format_time v = inr "N/A" /\ format_date v = inr "N/A") /\
  (truthy v = true -> is_str v = false ->
   format_time v = inl AttributeError /\ format_date v = inl AttributeError) /\
  (forall e, format_time v = inl e ->
             e = AttributeError /\ truthy v = true /\ is_str v = false) /\
  (forall e, format_date v = inl e ->
             e = AttributeError /\ truthy v = true /\ is_str v = false).
Proof.
  split; [| split; [| split]].
  - intros H. unfold format_time, format_date. rewrite H. split; reflexivity.
  - intros Ht Hs. unfold format_time, format_date. rewrite Ht.
    destruct v; try discriminate Hs; split; reflexivity.
  - exact (format_time_raises v).
  - exact (format_date_raises v).
Qed.

Lemma formatters_case_analysis_witness :
  (format_time (VInt 0) = inr "N/A" /\ format_date (VInt 0) = inr "N/A") /\
  (format_time (VList [VStr "2024-03-05"]) = inl AttributeError /\
   format_date (VList [VStr "2024-03-05"]) = inl AttributeError).
Proof.
  split.
  - destruct (formatters_case_analysis (VInt 0)) as (H & _).
    apply H. reflexivity.
  - destruct (formatters_case_analysis (VList [VStr "2024-03-05"]))
      as (_ & H & _).
    apply H; reflexivity.
Defined.

(** ** The replacement of [Z] *)

(** X6. A timestamp without [Z] reaches the parser as it is: the formatters
    then show what [fromisoformat] makes of the string itself. *)
Theorem timestamp_without_Z (s : string) :
  s <> EmptyString ->
  str_contains "Z" s = false ->
  format_time (VStr s) =
  inr (match fromisoformat s with
       | Some dt => strftime dt "%I:%M %p"
       | None => "Time N/A"
       end) /\
  format_date (VStr s) =
  inr (match fromisoformat s with
       | Some dt => strftime dt "%B %d, %Y"
       | None => "Date N/A"
       end).
Proof.
  intros Hs HZ.
  rewrite (format_time_string s Hs), (format_date_string s Hs).
  rewrite (str_replace_without_Z _ s HZ). split; reflexivity.
Qed.

Lemma timestamp_without_Z_witness :
  format_time (VStr "2024-03-05T21:40:00-03:00") =
  inr (match fromisoformat "2024-03-05T21:40:00-03:00" with
       | Some dt => strftime dt "%I:%M %p"
       | None => "Time N/A"
       end).
Proof.
  apply (timestamp_without_Z "2024-03-05T21:40:00-03:00");
    [discriminate | reflexivity].
Defined.

(** X7. Every [Z] of the timestamp is replaced, wherever it stands: the
    string handed to the parser never holds a [Z]. *)
Theorem parser_never_sees_Z (s : string) :
  str_contains "Z" (str_replace s "Z" "+00:00") = false.
Proof.
  induction s as [| c s IH]; [reflexivity |].
  rewrite replace_Z_cons. destruct (Ascii.eqb "Z" c) eqn:Hc.
  - rewrite str_contains_Z_append, IH. reflexivity.
  - rewrite str_contains_Z_cons, Hc, IH. reflexivity.
Qed.

(** ** The dashboard *)

Section Dashboard.

Variable container_str : value -> string.
Variable st_video : value -> option exn.
Variable st_image : value -> value -> option exn.

Lemma show_media_dict (apod : gmap string value) :
  show_media st_video st_image (VDict apod) (get_or apod "media_type" VNone)
             (get_or apod "url" VNone) =
  ([media_event apod],
   match media_failure st_video st_image apod with
   | Some e => Raised e
   | None => Done tt
   end).
Proof.
  unfold media_event, media_failure.
  destruct (truthy (get_or apod "url" VNone)) eqn:Hurl.
  - rewrite (show_media_with_url _ _ _ _ _ Hurl).
    destruct (eq_str (get_or apod "media_type" VNone) "video");
      [reflexivity |].
    destruct (eq_str (get_or apod "media_type" VNone) "image"); reflexivity.
  - unfold show_media. rewrite Hurl. reflexivity.
Qed.

Lemma dict_get_dict (d : gmap string value) (key : string) (default : value) :
  dict_get (VDict d) key default = inr (get_or d key default).
Proof. reflexivity. Qed.

Lemma dict_get_raises (obj : value) (key : string) (default : value) (e : exn) :
  dict_get obj key default = inl e -> e = AttributeError /\ is_dict obj = false.
Proof. destruct obj; simpl; intros H; inversion H; auto. Qed.

(** The dashboard of an object that binds both keys, from the first
    section heading on. *)
Lemma dashboard_of_valid (d : gmap string value) (apod weather : value) :
  d !! "apod" = Some apod ->
  d !! "weather" = Some weather ->
  dashboard container_str st_video st_image (VDict d) =
  (run emit (Markdown (VStr (section_title
         "✨ NASA Astronomy Picture of the Day (APOD)"))) then
   run emit (Columns 2) then
   let! title := lift (dict_get apod "title" (VStr "Title Missing")) in
   run emit (Subheader title) then
   let! media_type := lift (dict_get apod "media_type" VNone) in
   let! media_url := lift (dict_get apod "url" VNone) in
   run show_media st_video st_image apod media_type media_url then
   let! date := lift (dict_get apod "date" VNone) in
   let! date_text := lift (format_date date) in
   run emit (Caption ("**Date:** " +:+ date_text)) then
   let! explanation :=
     lift (dict_get apod "explanation" (VStr "No explanation available.")) in
   run emit (Markdown explanation) then
   run emit (Markdown (VStr (section_title "☁️ Local Weather Summary"))) then
   run emit (Columns 3) then
   let! temp_value := lift (dict_get weather "temperature" VNone) in
   run emit (Metric "Temperature" (temp_display container_str temp_value)) then
   let! wind_value := lift (dict_get weather "windspeed" VNone) in
   run emit (Metric "Wind Speed" (wind_display container_str wind_value)) then
   let! time := lift (dict_get weather "time" VNone) in
   let! local_time := lift (format_time time) in
   emit (Metric "Local Time" local_time)).
Proof.
  intros Ha Hw. unfold dashboard.
  rewrite structure_invalid_dict, Ha, Hw.
  rewrite !bool_decide_eq_true_2 by eauto.
  cbn [andb negb]. rewrite bind_lift. cbn [subscript].
  rewrite Ha, Hw, !bind_lift. reflexivity.
Qed.

Ltac run_dashboard :=
  rewrite ?dict_get_dict;
  repeat (rewrite ?bind_emit, ?bind_lift; cbn [fst snd]).

(** X9. A complete pass: when [apod] and [weather] are objects, the media
    call, if one is made, does not raise, and the [date] and [time] fields
    can be formatted, the dashboard shows its eleven widgets in order, every
    missing field replaced by its placeholder, and ends normally. *)
Theorem dashboard_complete
    (d apod weather : gmap string value) (date_text local_time : string) :
  d !! "apod" = Some (VDict apod) ->
  d !! "weather" = Some (VDict weather) ->
  media_failure st_video st_image apod = None ->
  format_date (get_or apod "date" VNone) = inr date_text ->
  format_time (get_or weather "time" VNone) = inr local_time ->
  dashboard container_str st_video st_image (VDict d) =
  ([Markdown (VStr (section_title
      "✨ NASA Astronomy Picture of the Day (APOD)"));
    Columns 2;
    Subheader (get_or apod "title" (VStr "Title Missing"));
    media_event apod;
    Caption ("**Date:** " +:+ date_text);
    Markdown (get_or apod "explanation" (VStr "No explanation available."));
    Markdown (VStr (section_title "☁️ Local Weather Summary"));
    Columns 3;
    Metric "Temperature"
           (temp_display container_str (get_or weather "temperature" VNone));
    Metric "Wind Speed"
           (wind_display container_str (get_or weather "windspeed" VNone));
    Metric "Local Time" local_time],
   Done tt).
Proof.
  intros Ha Hw Hmedia Hdate Htime.
  rewrite (dashboard_of_valid d _ _ Ha Hw). run_dashboard.
  rewrite show_media_dict, Hmedia, Hdate, Htime.
  unfold bind, emit. reflexivity.
Qed.

(** X21. A media call that raises ends the dashboard on the spot: the
    heading, the columns, the title and the call are all that is shown, and
    the exception of [st.video] or [st.image] leaves the script. *)
Theorem media_failure_stops_dashboard
    (d apod : gmap string value) (weather : value) (e : exn) :
  d !! "apod" = Some (VDict apod) ->
  d !! "weather" = Some weather ->
  media_failure st_video st_image apod = Some e ->
  dashboard container_str st_video st_image (VDict d) =
  ([Markdown (VStr (section_title
      "✨ NASA Astronomy Picture of the Day (APOD)"));
    Columns 2;
    Subheader (get_or apod "title" (VStr "Title Missing"));
    media_event apod],
   Raised e).
Proof.
  intros Ha Hw Hmedia.
  rewrite (dashboard_of_valid d _ _ Ha Hw). run_dashboard.
  rewrite show_media_dict, Hmedia. reflexivity.
Qed.

Ltac step_raises :=
  repeat first
    [ apply raises_only_bind; [| intros ?]
    | apply raises_only_emit
    | apply raises_only_ret
    | apply raises_only_lift; intros ? ? ].

Lemma show_media_raises_only (apod media_type media_url : value) :
  raises_only (dashboard_exception st_video st_image)
              (show_media st_video st_image apod media_type media_url).
Proof.
  unfold show_media.
  destruct (truthy media_url); [| apply raises_only_emit].
  destruct (eq_str media_type "video").
  { apply raises_only_bind; [apply raises_only_emit | intros _].
    apply raises_only_raised_by. intros e H. right. left. eauto. }
  destruct (eq_str media_type "image"); [| apply raises_only_emit].
  apply raises_only_bind.
  - apply raises_only_lift. intros e H. left. right.
    now apply dict_get_raises in H.
  - intros caption.
    apply raises_only_bind; [apply raises_only_emit | intros _].
    apply raises_only_raised_by. intros e H. right. right. eauto.
Qed.

Lemma dashboard_of_non_object (data : value) :
  is_dict data = false ->
  dashboard container_str st_video st_image data =
  ([ErrorMsg invalid_structure None], Done tt)
  \/ dashboard container_str st_video st_image data = ([], Raised TypeError).
Proof.
  destruct data as [| b | n | f | s | l | d]; try discriminate; intros _;
    unfold dashboard, structure_invalid, py_in, truthy;
    repeat (case_match; simpl; try discriminate); auto.
Qed.

(** X10. A decoded body that is no object never gets as far as the page:
    the dashboard either shows the invalid-structure error alone, or raises
    [TypeError] before it has shown anything. *)
Theorem non_object_body_never_renders (data : value) :
  is_dict data = false ->
  dashboard container_str st_video st_image data =
  ([ErrorMsg invalid_structure None], Done tt)
  \/ dashboard container_str st_video st_image data = ([], Raised TypeError).
Proof.
  exact (dashboard_of_non_object data).
Qed.

Lemma dashboard_raises_allowed (data : value) :
  raises_only (dashboard_exception st_video st_image)
              (dashboard container_str st_video st_image data).
Proof.
  destruct (is_dict data) eqn:Hd.
  - destruct data as [| | | | | | d]; try discriminate Hd.
    destruct (d !! "apod") as [apod |] eqn:Ha;
      [destruct (d !! "weather") as [weather |] eqn:Hw |].
    + rewrite (dashboard_of_valid d _ _ Ha Hw).
      step_raises; try apply show_media_raises_only;
        match goal with
        | H : dict_get _ _ _ = inl _ |- _ =>
            left; right; now apply dict_get_raises in H
        | H : format_date _ = inl _ |- _ =>
            left; right; now apply format_date_raises in H
        | H : format_time _ = inl _ |- _ =>
            left; right; now apply format_time_raises in H
        end.
    + unfold dashboard.
      rewrite (proj2 (structure_invalid_dict_iff d) (or_intror Hw)).
      apply raises_only_emit.
    + unfold dashboard.
      rewrite (proj2 (structure_invalid_dict_iff d) (or_introl Ha)).
      apply raises_only_emit.
  - destruct (dashboard_of_non_object data Hd)
      as [-> | ->]; intros e H; [discriminate H |].
    injection H as <-. left. left. reflexivity.
Qed.

(** X11. An exception that leaves the dashboard is a [TypeError], an
    [AttributeError], or what [st.video] or [st.image] raised; the two
    subscripts never raise [KeyError], because the structure check has seen
    both keys. *)
Theorem dashboard_raises_only (data : value) :
  match snd (dashboard container_str st_video st_image data) with
  | Raised e => dashboard_exception st_video st_image e
  | _ => True
  end /\
  ((forall url, st_video url <> Some KeyError) ->
   (forall url caption, st_image url caption <> Some KeyError) ->
   snd (dashboard container_str st_video st_image data) <> Raised KeyError).
Proof.
  pose proof (dashboard_raises_allowed data) as Hall.
  split.
  - destruct (snd (dashboard container_str st_video st_image data)) eqn:Ho;
      try exact I.
    now apply Hall.
  - intros Hv Hi H.
    destruct (Hall _ H) as [[Ht | Ht] | [[url Hr] | (url & caption & Hr)]];
      try discriminate Ht.
    + now apply (Hv url).
    + now apply (Hi url caption).
Qed.

(** X12. The structure check does not protect the sections.  When the
    value bound to [apod] is no object, the dashboard raises
    [AttributeError] right after the first section heading; when [apod] is
    an object whose media call does not raise and [weather] is no object,
    it raises [AttributeError] as well, at the latest at the first [.get] on
    [weather]. *)
Theorem non_object_section_raises
    (d : gmap string value) (apod weather : value) :
  d !! "apod" = Some apod ->
  d !! "weather" = Some weather ->
  (is_dict apod = false ->
   dashboard container_str st_video st_image (VDict d) =
   ([Markdown (VStr (section_title
       "✨ NASA Astronomy Picture of the Day (APOD)"));
     Columns 2],
    Raised AttributeError)) /\
  (forall a : gmap string value,
     apod = VDict a ->
     is_dict weather = false ->
     media_failure st_video st_image a = None ->
     snd (dashboard container_str st_video st_image (VDict d)) =
     Raised AttributeError).
Proof.
  intros Ha Hw. split.
  - intros Hda. rewrite (dashboard_of_valid d _ _ Ha Hw).
    assert (dict_get apod "title" (VStr "Title Missing") = inl AttributeError)
      as Hget by (destruct apod; try discriminate Hda; reflexivity).
    rewrite !bind_emit, bind_lift, Hget. reflexivity.
  - intros a -> Hdw Hmedia.
    rewrite (dashboard_of_valid d _ _ Ha Hw). run_dashboard.
    rewrite show_media_dict, Hmedia.
    destruct (format_date (get_or a "date" VNone)) as [e | date_text] eqn:Hf.
    + apply format_date_raises in Hf as (-> & _). reflexivity.
    + destruct weather; try discriminate Hdw; reflexivity.
Qed.

Ltac step_log :=
  repeat first
    [ apply log_all_bind; [| intros ?]
    | apply log_all_lift
    | apply log_all_ret
    | apply log_all_raised_by
    | apply log_all_emit; reflexivity ].

Lemma show_media_display (apod media_type media_url : value) :
  log_all is_display (show_media st_video st_image apod media_type media_url).
Proof.
  unfold show_media. destruct (truthy media_url); [| step_log].
  destruct (eq_str media_type "video"); [step_log |].
  destruct (eq_str media_type "image"); step_log.
Qed.

Lemma dashboard_display_log (data : value) :
  log_all is_display (dashboard container_str st_video st_image data).
Proof.
  unfold dashboard.
  apply log_all_bind; [apply log_all_lift | intros invalid].
  destruct invalid; step_log. apply show_media_display.
Qed.

(** X13. Whatever the payload is, the dashboard only calls display
    widgets: it sends no request and never shows the raw document. *)
Theorem dashboard_only_displays (data : value) :
  log_all is_display (dashboard container_str st_video st_image data) /\
  count_gets (fst (dashboard container_str st_video st_image data)) = 0%nat /\
  existsb is_json (fst (dashboard container_str st_video st_image data)) =
  false.
Proof.
  pose proof (dashboard_display_log data) as H.
  split; [exact H | split].
  - now apply display_log_no_gets.
  - now apply display_log_no_json.
Qed.

(** X18. The media column plays a video exactly when there is a URL and
    the media type is ["video"], and shows a picture exactly when there is a
    URL, the media type is ["image"] and [apod] is an object; in every other
    case it shows no media. *)
Theorem media_shown_iff (apod media_type media_url : value) :
  (fst (show_media st_video st_image apod media_type media_url) =
   [Video media_url] <->
   truthy media_url = true /\ media_type = VStr "video") /\
  ((exists caption,
      fst (show_media st_video st_image apod media_type media_url) =
      [Image media_url caption])
   <-> truthy media_url = true /\ media_type = VStr "image" /\
       is_dict apod = true).
Proof.
  pose proof (eq_str_true media_type "video") as Hv.
  pose proof (eq_str_true media_type "image") as Hi.
  unfold show_media.
  destruct (truthy media_url);
    [| split; split;
       [ intros H; discriminate H | intros [H _]; discriminate H
       | intros [c H]; discriminate H | intros [H _]; discriminate H ]].
  destruct (eq_str media_type "video") eqn:Ev;
    [| destruct (eq_str media_type "image") eqn:Ei].
  - assert (media_type = VStr "video") as -> by now apply Hv.
    rewrite call_result. split; split.
    + auto.
    + reflexivity.
    + intros [c H]. discriminate H.
    + intros (_ & H & _). discriminate H.
  - assert (media_type = VStr "image") as -> by now apply Hi.
    destruct apod as [| | | | | | a];
      try (split; split;
           [ intros H; discriminate H | intros [_ H]; discriminate H
           | intros [c H]; discriminate H
           | intros (_ & _ & H); discriminate H ]).
    cbn [dict_get]. rewrite bind_lift_value, call_result.
    split; split.
    + intros H. discriminate H.
    + intros [_ H]. discriminate H.
    + auto.
    + intros _. eexists. reflexivity.
  - split; split.
    + intros H. discriminate H.
    + intros [_ ->]. discriminate Ev.
    + intros [c H]. discriminate H.
    + intros (_ & -> & _). discriminate Ei.
Qed.

(** X19. The structure check outside objects: every falsy document (None,
    zero, false, the empty string, list or dictionary) is refused with the
    error message alone; the check itself raises exactly on the truthy
    scalars (true, a non-zero number), which are not iterable, and then with
    [TypeError]. *)
Theorem structure_check_edge_values (data : value) :
  (truthy data = false ->
   structure_invalid data = inr true /\
   dashboard container_str st_video st_image data =
   ([ErrorMsg invalid_structure None], Done tt)) /\
  (forall e,
     structure_invalid data = inl e <->
     e = TypeError /\ truthy data = true /\ is_scalar data = true).
Proof.
  split.
  - intros H. unfold dashboard, structure_invalid. rewrite H. auto.
  - intros e. unfold structure_invalid, py_in.
    destruct (truthy data) eqn:Ht; cbn [negb].
    + destruct data; cbn [is_scalar]; try discriminate Ht;
        first
          [ split; [intros Heq; injection Heq as <-; auto
                   | intros (-> & _ & _); reflexivity]
          | split; [intros Heq; repeat case_match; discriminate
                   | intros (_ & _ & Hs); discriminate Hs] ].
    + split; [intros H; discriminate H | intros (_ & H & _); discriminate H].
Qed.

End Dashboard.

Lemma dashboard_complete_witness :
  snd (dashboard no_containers plays shows sample_payload) = Done tt.
Proof.
  unfold sample_payload.
  rewrite (dashboard_complete no_containers plays shows _
             (<["media_type" := VStr "image"]>
              {["url" := VStr "https://apod.example/m31.jpg"]})
             (<["temperature" := VFloat float_18_2]>
              (<["windspeed" := VNone]>
               {["time" := VStr "2024-03-05T08:15:00Z"]}))
             "N/A" "08:15 AM");
    [reflexivity | reflexivity | reflexivity | reflexivity
    | reflexivity | vm_compute; reflexivity].
Defined.

Lemma media_failure_stops_dashboard_witness :
  snd (dashboard no_containers cannot_play shows
         (VDict (<["apod" := VDict (<["media_type" := VStr "video"]>
                                    {["url" := VStr "m31"]})]>
                 {["weather" := VDict ∅]}))) =
  Raised media_error.
Proof.
  rewrite (media_failure_stops_dashboard no_containers cannot_play shows _
             (<["media_type" := VStr "video"]> {["url" := VStr "m31"]})
             (VDict ∅) media_error);
    reflexivity.
Defined.

Lemma non_object_body_never_renders_witness :
  dashboard no_containers plays shows (VStr "apod and weather are down") =
  ([ErrorMsg invalid_structure None], Done tt)
  \/ dashboard no_containers plays shows (VStr "apod and weather are down") =
     ([], Raised TypeError).
Proof.
  apply non_object_body_never_renders. reflexivity.
Defined.

Lemma dashboard_raises_only_witness :
  snd (dashboard no_containers plays shows
         (VDict (<["weather" := VInt 3]> {["apod" := VInt 1]}))) <>
  Raised KeyError.
Proof.
  destruct (dashboard_raises_only no_containers plays shows
              (VDict (<["weather" := VInt 3]> {["apod" := VInt 1]})))
    as [_ H].
  apply H; intros; discriminate.
Defined.

Lemma non_object_section_raises_witness :
  dashboard no_containers plays shows
    (VDict (<["weather" := VInt 3]> {["apod" := VStr "not an object"]})) =
  ([Markdown (VStr (section_title
      "✨ NASA Astronomy Picture of the Day (APOD)"));
    Columns 2],
   Raised AttributeError) /\
  snd (dashboard no_containers plays shows
         (VDict (<["weather" := VInt 3]> {["apod" := VDict ∅]}))) =
  Raised AttributeError.
Proof.
  split.
  - destruct (non_object_section_raises no_containers plays shows
                (<["weather" := VInt 3]> {["apod" := VStr "not an object"]})
                (VStr "not an object") (VInt 3)) as [H _];
      [reflexivity | reflexivity |].
    apply H. reflexivity.
  - destruct (non_object_section_raises no_containers plays shows
                (<["weather" := VInt 3]> {["apod" := VDict ∅]})
                (VDict ∅) (VInt 3)) as [_ H];
      [reflexivity | reflexivity |].
    apply (H ∅); reflexivity.
Defined.

Lemma structure_check_edge_values_witness :
  dashboard no_containers plays shows (VList []) =
  ([ErrorMsg invalid_structure None], Done tt).
Proof.
  destruct (structure_check_edge_values no_containers plays shows (VList []))
    as [H _].
  apply H. reflexivity.
Defined.

(** ** The whole script *)

Section Main.

Variable requests_get : string -> Z -> exn + response.
Variable json_loads : string -> option value.
Variable wraps show_raw : bool.
Variable container_str : value -> string.
Variable st_video : value -> option exn.
Variable st_image : value -> value -> option exn.

Lemma debug_view_log (data : value) :
  debug_view show_raw data = (debug_log show_raw data, Done tt).
Proof. destruct show_raw; reflexivity. Qed.

(** [main] with the URL set, by the outcome of the fetch. *)
Lemma main_unfolded (url : string) :
  url <> EmptyString ->
  main (Some url) requests_get json_loads wraps show_raw container_str
       st_video st_image =
  match fetch_data requests_get json_loads wraps url with
  | (log, Done data) =>
      ((Title "🌌 Cosmic Daily Digest 🗓️" :: log ++ debug_log show_raw data ++
        fst (dashboard container_str st_video st_image data))%list,
       snd (dashboard container_str st_video st_image data))
  | (log, Stopped) => (Title "🌌 Cosmic Daily Digest 🗓️" :: log, Stopped)
  | (log, Raised e) => (Title "🌌 Cosmic Daily Digest 🗓️" :: log, Raised e)
  end.
Proof.
  intros Hurl. destruct url as [| c u]; [contradiction |].
  unfold main, bind, emit.
  destruct (fetch_data requests_get json_loads wraps (String c u))
    as [log [data | | e]]; try reflexivity.
  rewrite debug_view_log.
  destruct (dashboard container_str st_video st_image data) as [log' o].
  reflexivity.
Qed.

Lemma fetch_data_no_json (url : string) :
  existsb is_json (fst (fetch_data requests_get json_loads wraps url)) = false.
Proof.
  destruct (fetch_data_cases requests_get json_loads wraps url)
    as [(e & _ & ->) | [(r & _ & _ & ->) | (r & _ & _ & ->)]];
    try reflexivity.
  destruct (json_loads (text r)); [reflexivity |]. destruct wraps; reflexivity.
Qed.

(** X15. The script sends a request only when the webhook URL is set and
    not empty, and then exactly one in the whole run; without the URL it
    shows the configuration error and ends normally. *)
Theorem main_request_count (webhook_url : option string) :
  count_gets (fst (main webhook_url requests_get json_loads wraps show_raw
                        container_str st_video st_image)) =
  (if configured webhook_url then 1%nat else 0%nat) /\
  (configured webhook_url = false ->
   snd (main webhook_url requests_get json_loads wraps show_raw
             container_str st_video st_image) = Done tt /\
   count_errors (fst (main webhook_url requests_get json_loads wraps show_raw
                           container_str st_video st_image)) = 1%nat).
Proof.
  destruct webhook_url as [[| c u] |];
    try (split; [reflexivity | intros _; split; reflexivity]).
  split; [| discriminate].
  rewrite main_unfolded by discriminate.
  pose proof (fetch_data_one_get requests_get json_loads wraps (String c u))
    as Hget.
  destruct (fetch_data requests_get json_loads wraps (String c u))
    as [log [data | | e]]; cbn [fst snd configured] in *;
    try (change (count_gets ([Title "🌌 Cosmic Daily Digest 🗓️"] ++ log)%list
                 = 1%nat);
         now rewrite count_gets_app, Hget).
  change (count_gets ([Title "🌌 Cosmic Daily Digest 🗓️"] ++
                      log ++ debug_log show_raw data ++
                      fst (dashboard container_str st_video st_image data))%list
          = 1%nat).
  rewrite !count_gets_app, Hget.
  rewrite (display_log_no_gets _
             (dashboard_display_log container_str st_video st_image data)).
  destruct show_raw; reflexivity.
Qed.

(** X16. The raw document is shown exactly when the fetch returned one and
    the checkbox is ticked; it is shown as fetched, before the structure
    check and whatever that check says. *)
Theorem raw_payload_shown_iff (url : string) :
  url <> EmptyString ->
  existsb is_json
    (fst (main (Some url) requests_get json_loads wraps show_raw
               container_str st_video st_image)) =
  show_raw &&
  match snd (fetch_data requests_get json_loads wraps url) with
  | Done _ => true
  | _ => false
  end /\
  (forall data,
     show_raw = true ->
     snd (fetch_data requests_get json_loads wraps url) = Done data ->
     In (Json data)
        (fst (main (Some url) requests_get json_loads wraps show_raw
                   container_str st_video st_image))).
Proof.
  intros Hurl. rewrite main_unfolded by assumption.
  pose proof (fetch_data_no_json url) as Hj.
  destruct (fetch_data requests_get json_loads wraps url)
    as [log [data | | e]]; cbn [fst snd] in *.
  - split.
    + cbn [existsb is_json orb]. rewrite !existsb_app, Hj.
      rewrite (display_log_no_json _
                 (dashboard_display_log container_str st_video st_image
                    data)).
      destruct show_raw; reflexivity.
    + intros data' Hshow Hd. injection Hd as <-.
      right. apply in_or_app. right. apply in_or_app. left.
      rewrite Hshow. simpl. auto.
  - split; [| discriminate].
    cbn [existsb is_json orb]. rewrite Hj. now rewrite andb_false_r.
  - split; [| discriminate].
    cbn [existsb is_json orb]. rewrite Hj. now rewrite andb_false_r.
Qed.

(** X17. An exception that ends a run of the script is a [TypeError], an
    [AttributeError], or what [st.video] or [st.image] raised, and comes
    from the dashboard: nothing of the configuration check, the fetch or the
    debugging aid raises. *)
Theorem main_raises_only (webhook_url : option string) :
  match snd (main webhook_url requests_get json_loads wraps show_raw
                  container_str st_video st_image) with
  | Raised e =>
      dashboard_exception st_video st_image e /\
      exists url data,
        webhook_url = Some url /\
        snd (fetch_data requests_get json_loads wraps url) = Done data /\
        snd (dashboard container_str st_video st_image data) = Raised e
  | _ => True
  end.
Proof.
  destruct webhook_url as [[| c u] |]; try exact I.
  rewrite main_unfolded by discriminate.
  pose proof (fetch_data_not_raised requests_get json_loads wraps (String c u))
    as Hnot.
  destruct (fetch_data requests_get json_loads wraps (String c u))
    as [log [data | | e']] eqn:Hf; cbn [snd] in *;
    [| exact I | destruct (Hnot e'); reflexivity].
  destruct (snd (dashboard container_str st_video st_image data)) eqn:Ho;
    try exact I.
  split.
  - now apply (dashboard_raises_allowed container_str st_video st_image data).
  - exists (String c u), data. rewrite Hf. auto.
Qed.

End Main.

Lemma main_request_count_witness :
  snd (main (Some EmptyString) (answers 200 "{}") (decodes_to (VDict ∅))
            true true no_containers plays shows) = Done tt /\
  count_errors
    (fst (main (Some EmptyString) (answers 200 "{}") (decodes_to (VDict ∅))
               true true no_containers plays shows)) = 1%nat.
Proof.
  apply main_request_count. reflexivity.
Defined.

Lemma raw_payload_shown_iff_witness :
  In (Json (VList []))
     (fst (main (Some hook) (answers 200 "[]") (decodes_to (VList [])) true
                true no_containers plays shows)).
Proof.
  destruct (raw_payload_shown_iff (answers 200 "[]") (decodes_to (VList []))
              true true no_containers plays shows hook) as [_ H];
    [discriminate |].
  apply H; reflexivity.
Defined.

(** ** The placeholders of the formatters *)

Lemma clock_hour_text (x : Z) (rest : string) :
  1 <= x <= 12 -> pad0 2 x +:+ rest <> "Time N/A".
Proof.
  intros Hx.
  assert (x = 1 \/ x = 2 \/ x = 3 \/ x = 4 \/ x = 5 \/ x = 6 \/ x = 7 \/
          x = 8 \/ x = 9 \/ x = 10 \/ x = 11 \/ x = 12) as Hcases by lia.
  repeat (destruct Hcases as [-> | Hcases]); try subst x;
    match goal with
    | |- pad0 2 ?k +:+ _ <> _ =>
        let v := eval vm_compute in (pad0 2 k) in
        change (pad0 2 k) with v
    end; discriminate.
Qed.

Lemma strftime_time_not_placeholder (dt : datetime) :
  strftime dt "%I:%M %p" <> "Time N/A".
Proof.
  cbn [strftime strftime_directive].
  apply clock_hour_text.
  pose proof (Z.mod_pos_bound (hour dt) 12 ltac:(lia)).
  destruct (Z.eqb_spec (hour dt mod 12) 0); lia.
Qed.

Lemma strftime_date_not_placeholder (dt : datetime) :
  strftime dt "%B %d, %Y" <> "Date N/A".
Proof.
  cbn [strftime strftime_directive]. unfold month_name.
  repeat case_match; discriminate.
Qed.

(** X20. The placeholders are unambiguous: on a non-empty string the time
    formatter gives ["Time N/A"] exactly when the timestamp is not parsable,
    and so does the date formatter with ["Date N/A"]; a formatted time or
    date never reads like a placeholder, and neither formatter gives
    ["N/A"] on a non-empty string. *)
Theorem placeholder_iff_unparsable (s : string) :
  s <> EmptyString ->
  (format_time (VStr s) = inr "Time N/A" <-> parsable_timestamp s = false) /\
  (format_date (VStr s) = inr "Date N/A" <-> parsable_timestamp s = false) /\
  format_time (VStr s) <> inr "N/A" /\
  format_date (VStr s) <> inr "N/A".
Proof.
  intros Hs. unfold parsable_timestamp.
  rewrite (format_time_string s Hs), (format_date_string s Hs).
  destruct (fromisoformat (str_replace s "Z" "+00:00")) as [dt |].
  - pose proof (strftime_time_not_placeholder dt) as Ht.
    pose proof (strftime_date_not_placeholder dt) as Hd.
    repeat split; try discriminate; intros H; injection H as H.
    + contradiction.
    + contradiction.
    + revert H. cbn [strftime strftime_directive].
      destruct (pad0 2 _) as [| c1 [| c2 [| c3 [| c4 t]]]];
        simpl; intros H; discriminate H.
    + revert H. cbn [strftime strftime_directive]. unfold month_name.
      repeat case_match; discriminate.
  - repeat split; discriminate.
Qed.

Lemma placeholder_iff_unparsable_witness :
  format_time (VStr "2024-02-30T10:00:00Z") = inr "Time N/A" <->
  parsable_timestamp "2024-02-30T10:00:00Z" = false.
Proof.
  destruct (placeholder_iff_unparsable "2024-02-30T10:00:00Z") as (H & _);
    [discriminate | exact H].
Defined.
